(** * Collation callbacks of [pytorch/1.dataloader_collate_fn.ipynb]

    The notebook defines two [collate_fn] callbacks for a PyTorch
    [DataLoader], [custom_collate] (section 1.3) and
    [custom_detection_collate] (section 2.3).  Both inspect the runtime shape
    of the batch they receive and either build the pair (inputs, targets)
    themselves or hand the batch to [torch.utils.data.default_collate].

    The code is dynamically typed, so the embedding works on a universe of
    Python values and spells out what [isinstance], [len], indexing and
    tuple unpacking do on each kind of value, including the exception they
    raise. *)

From stdpp Require Import base option list strings gmap.

Set Warnings "-register-all".

Local Open Scope Z_scope.
Local Open Scope nat_scope.

(** ** Python values *)

(** Dictionary keys of the notebook are strings; integer keys are kept as
    well because [batch[0][1]] on a dictionary looks up the key [1]. *)
Inductive key :=
| KInt (z : Z)
| KStr (s : string).

(** The values the callbacks can meet.  A tensor is a shape and its
    row-major contents; the contents are never computed on, so integers
    stand for the scalar type. *)
Inductive pyval :=
| VInt (z : Z)
| VStr (s : string)
| VTensor (shape : list nat) (data : list Z)
| VTuple (items : list pyval)
| VList (items : list pyval)
| VDict (items : list (key * pyval)).

(** The exceptions raised by the operations used in the notebook. *)
Inductive exn :=
| IndexError
| KeyError
| TypeError
| ValueError
| RuntimeError.

(** Outcome of evaluating a Python expression. *)
Inductive result (A : Type) :=
| Ok (a : A)
| Raise (e : exn).
Arguments Ok {A} a.
Arguments Raise {A} e.

#[global] Instance key_eq_dec : EqDecision key.
Proof. solve_decision. Defined.

#[global] Instance exn_eq_dec : EqDecision exn.
Proof. solve_decision. Defined.

#[global] Instance result_ret : MRet result := @Ok.
#[global] Instance result_bind : MBind result := λ A B f m,
  match m with
  | Ok a => f a
  | Raise e => Raise e
  end.

(** ** Built-in operations *)

Module Py.

Definition isinstance_list (v : pyval) : bool :=
  match v with VList _ => true | _ => false end.

Definition isinstance_dict (v : pyval) : bool :=
  match v with VDict _ => true | _ => false end.

(** Number of scalars of a tensor of the given shape. *)
Definition numel (shape : list nat) : nat := foldr Nat.mul 1 shape.

(** [t[i]] for a tensor whose first dimension was removed: the [i]-th
    block of [numel shape] scalars. *)
Definition subtensor (shape : list nat) (data : list Z) (i : nat) : pyval :=
  VTensor shape (take (numel shape) (drop (i * numel shape) data)).

(** The characters of a string, each as a string of length one. *)
Fixpoint chars (s : string) : list pyval :=
  match s with
  | EmptyString => []
  | String c s' => VStr (String c EmptyString) :: chars s'
  end.

Definition key_val (k : key) : pyval :=
  match k with KInt z => VInt z | KStr s => VStr s end.

Fixpoint dict_get (items : list (key * pyval)) (k : key) : result pyval :=
  match items with
  | [] => Raise KeyError
  | (k', v) :: rest => if decide (k' = k) then Ok v else dict_get rest k
  end.

(** [len(v)] *)
Definition len (v : pyval) : result nat :=
  match v with
  | VInt _ => Raise TypeError
  | VStr s => Ok (length (chars s))
  | VTensor [] _ => Raise TypeError
  | VTensor (n :: _) _ => Ok n
  | VTuple items | VList items => Ok (length items)
  | VDict items => Ok (length items)
  end.

Definition index {A} (items : list A) (i : nat) : result A :=
  match items !! i with
  | Some x => Ok x
  | None => Raise IndexError
  end.

(** [v[i]] for a literal index [i >= 0] *)
Definition getitem (v : pyval) (i : nat) : result pyval :=
  match v with
  | VInt _ => Raise TypeError
  | VStr s => index (chars s) i
  | VTensor [] _ => Raise IndexError
  | VTensor (n :: shape) data =>
      if decide (i < n) then Ok (subtensor shape data i) else Raise IndexError
  | VTuple items | VList items => index items i
  | VDict items => dict_get items (KInt (Z.of_nat i))
  end.

(** The values produced by iterating over [v]. *)
Definition iter (v : pyval) : result (list pyval) :=
  match v with
  | VInt _ => Raise TypeError
  | VStr s => Ok (chars s)
  | VTensor [] _ => Raise TypeError
  | VTensor (n :: shape) data => Ok (subtensor shape data <$> seq 0 n)
  | VTuple items | VList items => Ok items
  | VDict items => Ok (key_val ∘ fst <$> items)
  end.

(** The target list [img, target] of the comprehensions: the sample is
    iterated and must yield exactly two values. *)
Definition unpack2 (v : pyval) : result (pyval * pyval) :=
  items ← iter v;
  match items with
  | [a; b] => Ok (a, b)
  | _ => Raise ValueError
  end.

End Py.

(** ** Library functions *)

Module Torch.

Definition as_tensor (v : pyval) : result (list nat * list Z) :=
  match v with
  | VTensor shape data => Ok (shape, data)
  | _ => Raise TypeError
  end.

(** Modelled from the spec: [torch.stack] is a library function.  The
    spec says that inputs are stacked into a single array of shape
    (batch, ...sample shape) and that a uniform stack is only legal when
    every input shares identical shape; the arguments must be tensors and
    there must be at least one. *)
Definition stack (tensors : list pyval) : result pyval :=
  ts ← mapM as_tensor tensors;
  match ts with
  | [] => Raise RuntimeError
  | (shape, _) :: _ =>
      if forallb (λ t, bool_decide (t.1 = shape)) ts
      then Ok (VTensor (length ts :: shape) (concat (snd <$> ts)))
      else Raise RuntimeError
  end.

Definition as_int (v : pyval) : result Z :=
  match v with
  | VInt z => Ok z
  | _ => Raise TypeError
  end.

(** [d[key]] for a sample that has to be a mapping. *)
Definition field (k : key) (sample : pyval) : result pyval :=
  match sample with
  | VDict items => Py.dict_get items k
  | _ => Raise TypeError
  end.

(** Samples collated as sequences must all have the size of the first. *)
Definition same_size (size : nat) (samples : list pyval) : result unit :=
  sizes ← mapM Py.len samples;
  if forallb (λ n, bool_decide (n = size)) sizes then Ok ()
  else Raise RuntimeError.

(** The fields of a mapping, collated key by key with [collate]: the
    field [k] of every sample is taken and the column is collated from
    the value the first sample has there. *)
Definition collate_dict (collate : pyval → list pyval → result pyval)
    (samples : list pyval) :
    list (key * pyval) → result (list (key * pyval)) :=
  fix go items :=
    match items with
    | [] => Ok []
    | (k, v) :: items' =>
        column ← mapM (field k) samples;
        c ← collate v column;
        cs ← go items';
        Ok ((k, c) :: cs)
    end.

(** The fields of a sequence, collated position by position. *)
Definition collate_seq (collate : pyval → list pyval → result pyval)
    (samples : list pyval) : list pyval → nat → result (list pyval) :=
  fix go items i :=
    match items with
    | [] => Ok []
    | v :: items' =>
        column ← mapM (λ s, Py.getitem s i) samples;
        c ← collate v column;
        cs ← go items' (S i);
        Ok (c :: cs)
    end.

(** Modelled from the spec: the default resolver is a library function.
    It inspects the runtime type of the first element of the batch and
    recursively stacks same-typed fields across all samples: numeric
    arrays are stacked, tuples give a tuple of stacked fields, mappings a
    mapping of stacked fields (one entry per key of the first sample),
    scalars a 1-D array of values.  [elem] is the first element and
    [samples] all of them.  The spec gives no rule for strings, which are
    rejected here, and none for fields whose type differs between
    samples, which raise. *)
Fixpoint collate (elem : pyval) (samples : list pyval) : result pyval :=
  match elem with
  | VTensor _ _ => stack samples
  | VInt _ => zs ← mapM as_int samples; Ok (VTensor [length zs] zs)
  | VStr _ => Raise TypeError
  | VDict items =>
      fields ← collate_dict collate samples items;
      Ok (VDict fields)
  | VTuple items =>
      _ ← same_size (length items) samples;
      fields ← collate_seq collate samples items 0;
      Ok (VTuple fields)
  | VList items =>
      _ ← same_size (length items) samples;
      fields ← collate_seq collate samples items 0;
      Ok (VList fields)
  end.

(** Modelled from the spec: [torch.utils.data.default_collate], the
    resolver above started on the first element of the batch. *)
Definition default_collate (batch : pyval) : result pyval :=
  elem ← Py.getitem batch 0;
  samples ← Py.iter batch;
  collate elem samples.

End Torch.

(** ** The two callbacks *)

Section Collate.

(** [torch.utils.data.default_collate] is a library function; the
    callbacks only call it, so it is a parameter here. *)
Variable default_collate : pyval → result pyval.

(** The test of the [if], common to both callbacks:
    [isinstance(batch, list) and len(batch[0]) == 2
     and isinstance(batch[0][1], dict)], evaluated left to right with
    [and] stopping at the first false operand. *)
Definition dispatch (batch : pyval) : result bool :=
  if Py.isinstance_list batch then
    first ← Py.getitem batch 0;
    n ← Py.len first;
    if decide (n = 2) then
      first ← Py.getitem batch 0;
      second ← Py.getitem first 1;
      Ok (Py.isinstance_dict second)
    else Ok false
  else Ok false.

(** [[img for img, target in batch]] *)
Definition imgs_of (batch : pyval) : result (list pyval) :=
  samples ← Py.iter batch;
  mapM (λ sample, '(img, target) ← Py.unpack2 sample; Ok img) samples.

(** [[target for img, target in batch]] *)
Definition targets_of (batch : pyval) : result (list pyval) :=
  samples ← Py.iter batch;
  mapM (λ sample, '(img, target) ← Py.unpack2 sample; Ok target) samples.

(** Body of the [if] branch of [custom_collate]. *)
Definition stack_branch (batch : pyval) : result pyval :=
  imgs ← (l ← imgs_of batch; Torch.stack l);
  targets ← targets_of batch;
  Ok (VTuple [imgs; VList targets]).

(** Body of the [if] branch of [custom_detection_collate]. *)
Definition list_branch (batch : pyval) : result pyval :=
  imgs ← imgs_of batch;
  targets ← targets_of batch;
  Ok (VTuple [VList imgs; VList targets]).

Definition custom_collate (batch : pyval) : result pyval :=
  b ← dispatch batch;
  if b : bool then stack_branch batch else default_collate batch.

Definition custom_detection_collate (batch : pyval) : result pyval :=
  b ← dispatch batch;
  if b : bool then list_branch batch else default_collate batch.

End Collate.

(** ** Batches of pairs *)

(** A sample as the datasets of the notebook return it: the tuple
    [(img, target)]. *)
Definition pair_sample (p : pyval * pyval) : pyval := VTuple [p.1; p.2].

Definition batch_of (samples : list (pyval * pyval)) : pyval :=
  VList (pair_sample <$> samples).

Definition is_pair (v : pyval) : bool :=
  match v with VTuple [_; _] => true | _ => false end.

(** A matched batch in the words of the spec: a non-empty list of 2-element
    tuples in which the second element of the first sample is a mapping. *)
Definition matched (batch : pyval) : bool :=
  match batch with
  | VList (VTuple [_; VDict _] :: rest) => forallb is_pair rest
  | _ => false
  end.

(** What the test of the [if] reads from a batch. *)
Definition first_len (batch : pyval) : result nat :=
  first ← Py.getitem batch 0; Py.len first.

Definition first_second_is_dict (batch : pyval) : result bool :=
  first ← Py.getitem batch 0;
  second ← Py.getitem first 1;
  Ok (Py.isinstance_dict second).

(** The batches on which the test evaluates to [False]. *)
Definition delegated (batch : pyval) : Prop :=
  Py.isinstance_list batch = false ∨
  ∃ first n, Py.getitem batch 0 = Ok first ∧ Py.len first = Ok n ∧
    (n ≠ 2 ∨ ∃ second, Py.getitem first 1 = Ok second ∧
                       Py.isinstance_dict second = false).

(** The unmatched domain read off the three conjuncts of the test: the
    batch is not a list, or its first sample is not of length 2, or the
    second element of its first sample is not a mapping. *)
Definition unmatched (batch : pyval) : Prop :=
  Py.isinstance_list batch = false ∨
  (∃ first, Py.getitem batch 0 = Ok first ∧ Py.len first ≠ Ok 2) ∨
  (∃ first second, Py.getitem batch 0 = Ok first ∧
     Py.getitem first 1 = Ok second ∧ Py.isinstance_dict second = false).

(** [x] is the only element of the container [c]. *)
Definition sole (c x : pyval) : Prop :=
  Py.len c = Ok 1 ∧ Py.getitem c 0 = Ok x.

(** The batch of size 1 is consistent with the whole batch at sample [i]:
    with the resolver [default_collate], the [i]-th elements of the two
    components [custom_detection_collate] returns on [batch] are the only
    elements of the components it returns on [[batch[i]]]. *)
Definition singleton_consistent_at (default_collate : pyval → result pyval)
    (batch : pyval) (i : nat) : Prop :=
  ∃ sample imgs targets imgs1 targets1 img target,
    Py.getitem batch i = Ok sample ∧
    custom_detection_collate default_collate batch =
      Ok (VTuple [imgs; targets]) ∧
    custom_detection_collate default_collate (VList [sample]) =
      Ok (VTuple [imgs1; targets1]) ∧
    Py.getitem imgs i = Ok img ∧ Py.getitem targets i = Ok target ∧
    sole imgs1 img ∧ sole targets1 target.

(** ** Batches of mappings with uniform fields *)

(** One field of the annotation mappings of a batch: its key, the shape its
    array has in every sample, and the contents of that array sample by
    sample. *)
Record column := Column {
  ckey : key;
  cshape : list nat;
  cdata : list (list Z)
}.

(** The mapping of sample [i]. *)
Definition target_at (cols : list column) (i : nat) : pyval :=
  VDict ((λ c, (ckey c, VTensor (cshape c) (cdata c !!! i))) <$> cols).

(** A batch of [n] samples, each an input of shape [ishape] paired with a
    mapping that has the fields [cols]. *)
Definition uniform_batch (n : nat) (ishape : list nat) (imgs : list (list Z))
    (cols : list column) : pyval :=
  VList ((λ i, VTuple [VTensor ishape (imgs !!! i); target_at cols i]) <$> seq 0 n).

(** The single mapping of stacked fields. *)
Definition stacked_target (n : nat) (cols : list column) : pyval :=
  VDict ((λ c, (ckey c, VTensor (n :: cshape c) (concat (cdata c)))) <$> cols).

(** ** The callbacks over a store of objects *)

(** To speak about what a call changes, the same code is read over a store:
    a Python value is a reference to an object, containers hold references,
    and evaluation threads the store.  Nothing in the callbacks assigns into
    an object, so the only effect left is the creation of new objects. *)
Module Store.

Definition loc := positive.

Inductive obj :=
| OInt (z : Z)
| OStr (s : string)
| OTensor (shape : list nat) (data : list Z)
| OTuple (items : list loc)
| OList (items : list loc)
| ODict (items : list (key * loc)).

#[global] Instance obj_inhabited : Inhabited obj := populate (OInt 0).

Abbreviation heap := (gmap loc obj).

(** A computation reads and extends the store and returns or raises. *)
Definition eval (A : Type) : Type := heap → heap * result A.

Definition ret {A} (a : A) : eval A := λ h, (h, Ok a).

Definition raise {A} (e : exn) : eval A := λ h, (h, Raise e).

Definition bind {A B} (m : eval A) (f : A → eval B) : eval B := λ h,
  match m h with
  | (h', Ok a) => f a h'
  | (h', Raise e) => (h', Raise e)
  end.

#[global] Instance eval_ret : MRet eval := @ret.
#[global] Instance eval_bind : MBind eval := λ A B f m, bind m f.

Fixpoint for_each {A B} (f : A → eval B) (l : list A) : eval (list B) :=
  match l with
  | [] => ret []
  | a :: l' => b ← f a; bs ← for_each f l'; ret (b :: bs)
  end.

Definition lift {A} (r : result A) : eval A := λ h, (h, r).

(** A new object, at a location the store does not use. *)
Definition alloc (o : obj) : eval loc := λ h,
  let l := fresh (dom h) in (<[l := o]> h, Ok l).

(** The object behind a reference.  References always point into the
    store; the lookup is total and reads the default object elsewhere. *)
Definition deref (l : loc) : eval obj := λ h, (h, Ok (h !!! l)).

Definition isinstance_list (o : obj) : bool :=
  match o with OList _ => true | _ => false end.

Definition isinstance_dict (o : obj) : bool :=
  match o with ODict _ => true | _ => false end.

Definition view (shape : list nat) (data : list Z) (i : nat) : obj :=
  OTensor shape (take (Py.numel shape) (drop (i * Py.numel shape) data)).

Fixpoint chars (s : string) : list obj :=
  match s with
  | EmptyString => []
  | String c s' => OStr (String c EmptyString) :: chars s'
  end.

Definition key_obj (k : key) : obj :=
  match k with KInt z => OInt z | KStr s => OStr s end.

Fixpoint dict_get (items : list (key * loc)) (k : key) : result loc :=
  match items with
  | [] => Raise KeyError
  | (k', v) :: rest => if decide (k' = k) then Ok v else dict_get rest k
  end.

(** [len(v)] *)
Definition len (v : loc) : eval nat :=
  o ← deref v;
  match o with
  | OInt _ => raise TypeError
  | OStr s => ret (length (chars s))
  | OTensor [] _ => raise TypeError
  | OTensor (n :: _) _ => ret n
  | OTuple items | OList items => ret (length items)
  | ODict items => ret (length items)
  end.

(** [v[i]]: containers hand out the reference they hold; a tensor and a
    string build a new object. *)
Definition getitem (v : loc) (i : nat) : eval loc :=
  o ← deref v;
  match o with
  | OInt _ => raise TypeError
  | OStr s => c ← lift (Py.index (chars s) i); alloc c
  | OTensor [] _ => raise IndexError
  | OTensor (n :: shape) data =>
      if decide (i < n) then alloc (view shape data i) else raise IndexError
  | OTuple items | OList items => lift (Py.index items i)
  | ODict items => lift (dict_get items (KInt (Z.of_nat i)))
  end.

(** The references produced by iterating over [v]. *)
Definition iter (v : loc) : eval (list loc) :=
  o ← deref v;
  match o with
  | OInt _ => raise TypeError
  | OStr s => for_each alloc (chars s)
  | OTensor [] _ => raise TypeError
  | OTensor (n :: shape) data => for_each alloc (view shape data <$> seq 0 n)
  | OTuple items | OList items => ret items
  | ODict items => for_each alloc (key_obj ∘ fst <$> items)
  end.

Definition unpack2 (v : loc) : eval (loc * loc) :=
  items ← iter v;
  match items with
  | [a; b] => ret (a, b)
  | _ => raise ValueError
  end.

Definition as_tensor (v : loc) : eval (list nat * list Z) :=
  o ← deref v;
  match o with
  | OTensor shape data => ret (shape, data)
  | _ => raise TypeError
  end.

(** [torch.stack], as [Torch.stack]: the result is a new tensor. *)
Definition stack (tensors : list loc) : eval loc :=
  ts ← for_each as_tensor tensors;
  match ts with
  | [] => raise RuntimeError
  | (shape, _) :: _ =>
      if forallb (λ t, bool_decide (t.1 = shape)) ts
      then alloc (OTensor (length ts :: shape) (concat (snd <$> ts)))
      else raise RuntimeError
  end.

Section Collate.

Variable default_collate : loc → eval loc.

Definition dispatch (batch : loc) : eval bool :=
  o ← deref batch;
  if isinstance_list o then
    first ← getitem batch 0;
    n ← len first;
    if decide (n = 2) then
      first ← getitem batch 0;
      second ← getitem first 1;
      o2 ← deref second;
      ret (isinstance_dict o2)
    else ret false
  else ret false.

Definition imgs_of (batch : loc) : eval (list loc) :=
  samples ← iter batch;
  for_each (λ sample, p ← unpack2 sample; ret p.1) samples.

Definition targets_of (batch : loc) : eval (list loc) :=
  samples ← iter batch;
  for_each (λ sample, p ← unpack2 sample; ret p.2) samples.

Definition stack_branch (batch : loc) : eval loc :=
  imgs ← (l ← imgs_of batch; stack l);
  targets ← (l ← targets_of batch; alloc (OList l));
  alloc (OTuple [imgs; targets]).

Definition list_branch (batch : loc) : eval loc :=
  imgs ← (l ← imgs_of batch; alloc (OList l));
  targets ← (l ← targets_of batch; alloc (OList l));
  alloc (OTuple [imgs; targets]).

Definition custom_collate (batch : loc) : eval loc :=
  b ← dispatch batch;
  if b : bool then stack_branch batch else default_collate batch.

Definition custom_detection_collate (batch : loc) : eval loc :=
  b ← dispatch batch;
  if b : bool then list_branch batch else default_collate batch.

End Collate.

(** A computation keeps the store when every object of the store it
    starts from is still there, unchanged, in the store it ends with. *)
Definition keeps {A} (m : eval A) : Prop := ∀ h, h ⊆ (m h).1.

(** The value a reference stands for, read off the store down to a
    depth. *)
Fixpoint reify (depth : nat) (h : heap) (l : loc) : option pyval :=
  match depth with
  | 0 => None
  | S depth' =>
      match h !! l with
      | None => None
      | Some (OInt z) => Some (VInt z)
      | Some (OStr s) => Some (VStr s)
      | Some (OTensor shape data) => Some (VTensor shape data)
      | Some (OTuple items) => VTuple <$> mapM (reify depth' h) items
      | Some (OList items) => VList <$> mapM (reify depth' h) items
      | Some (ODict items) =>
          VDict <$> mapM (λ kv, pair kv.1 <$> reify depth' h kv.2) items
      end
  end.

End Store.

(** A batch laid out in the store: a list object whose items are tuple
    objects, the [i]-th holding the two references [pairs !! i]. *)
Definition batch_at (h : gmap Store.loc Store.obj) (batch : Store.loc)
    (pairs : list (Store.loc * Store.loc)) : Prop :=
  ∃ samples,
    h !! batch = Some (Store.OList samples) ∧
    Forall2 (λ s p, h !! s = Some (Store.OTuple [p.1; p.2])) samples pairs.

(** References that are new with respect to a store. *)
Definition new_refs (h : gmap Store.loc Store.obj) (ls : list Store.loc) : Prop :=
  NoDup ls ∧ Forall (λ l, h !! l = None) ls.

(** The part of the default resolver that handles a batch of tensors, over
    the store. *)
Definition stack_batch (batch : Store.loc) : Store.eval Store.loc :=
  samples ← Store.iter batch; Store.stack samples.

(** A store holding a batch of two detection samples: [9] is the batch,
    [4] and [8] its samples. *)
Definition detection_store : gmap Store.loc Store.obj :=
  list_to_map
    [(1%positive, Store.OTensor [2] [1; 2]%Z);
     (2%positive, Store.ODict [(KStr "labels", 3%positive)]);
     (3%positive, Store.OTensor [1] [12%Z]);
     (4%positive, Store.OTuple [1%positive; 2%positive]);
     (5%positive, Store.OTensor [2] [3; 4]%Z);
     (6%positive, Store.ODict [(KStr "labels", 7%positive)]);
     (7%positive, Store.OTensor [2] [81; 7]%Z);
     (8%positive, Store.OTuple [5%positive; 6%positive]);
     (9%positive, Store.OList [4%positive; 8%positive])].

(** ** Batches with a leading array field *)

(** A sample whose annotation is a mapping that starts with the array field
    [k]: the row gives the contents of the input, the shape and contents of
    that array, and the other fields. *)
Definition keyed_sample (ishape : list nat) (k : key)
    (row : list Z * (list nat * list Z) * list (key * pyval)) : pyval :=
  VTuple [VTensor ishape row.1.1;
          VDict ((k, VTensor row.1.2.1 row.1.2.2) :: row.2)].

(** ** Random data and the datasets *)

(** The tensor operations [rand_boxes] calls are library functions; they
    are written out here as the library documents them.  [torch.cat] joins
    the tensors along dimension [dim]: they must agree on every other
    dimension, and for each index of the dimensions before [dim] the blocks
    of the tensors follow one another. *)
Module Tensor.

(** The block of a tensor of shape [outer ++ c :: inner] at index [o] of the
    outer dimensions. *)
Definition block (c inner : nat) (data : list Z) (o : nat) : list Z :=
  take (c * inner) (drop (o * (c * inner)) data).

(** Splits a shape at [dim]. *)
Definition split_shape (shape : list nat) (dim : nat) :
    result (list nat * nat * list nat) :=
  match drop dim shape with
  | [] => Raise IndexError
  | c :: inner => Ok (take dim shape, c, inner)
  end.

Definition cat (tensors : list pyval) (dim : nat) : result pyval :=
  ts ← mapM Torch.as_tensor tensors;
  match ts with
  | [] => Raise RuntimeError
  | (shape0, _) :: _ =>
      '(outer, _, inner) ← split_shape shape0 dim;
      parts ← mapM (λ t : list nat * list Z,
                      '(outer', c, inner') ← split_shape t.1 dim;
                      if bool_decide (outer' = outer ∧ inner' = inner)
                      then Ok (c, t.2) else Raise RuntimeError) ts;
      Ok (VTensor (outer ++ sum_list parts.*1 :: inner)
            (concat ((λ o, concat ((λ p : nat * list Z,
                                      block p.1 (Py.numel inner) p.2 o)
                                   <$> parts))
                     <$> seq 0 (Py.numel outer))))
  end.

(** A scalar operation applied to every element, as in [0.9 * t] and
    [t + 0.1]. *)
Definition map (f : Z → Z) (t : pyval) : result pyval :=
  match t with
  | VTensor shape data => Ok (VTensor shape (f <$> data))
  | _ => Raise TypeError
  end.

End Tensor.

(** The random generators of the notebook draw from a source that is not
    part of it.  The source is an arbitrary sequence [draws] of raw values
    read at a cursor, so that a statement for every [draws] is a statement
    for every outcome of the random calls. *)
Module Rng.

Definition gen (A : Type) : Type := nat → nat * result A.

#[global] Instance gen_ret : MRet gen := λ A a pos, (pos, Ok a).
#[global] Instance gen_bind : MBind gen := λ A B f m pos,
  match m pos with
  | (pos', Ok a) => f a pos'
  | (pos', Raise e) => (pos', Raise e)
  end.

Definition lift {A} (r : result A) : gen A := λ pos, (pos, r).

(** [[m for i in range(n)]] *)
Fixpoint repeat {A} (n : nat) (m : gen A) : gen (list A) :=
  match n with
  | 0 => mret []
  | S n' => a ← m; l ← repeat n' m; mret (a :: l)
  end.

Section Source.

Variable draws : nat → Z.

Definition draw : gen Z := λ pos, (S pos, Ok (draws pos)).

(** [torch.rand] with the dimensions [shape]: the elements stand for
    floats between 0 and 1. *)
Definition rand (shape : list nat) : gen pyval :=
  data ← repeat (Py.numel shape) draw; mret (VTensor shape data).

(** [np.random.randint(low, high)] for [low < high], as at every call of
    the notebook: some integer from [low] up to [high - 1]. *)
Definition randint (low high : Z) : gen Z :=
  z ← draw; mret (low + z `mod` (high - low))%Z.

(** [np.random.randint(low, high, size=n)] *)
Definition randint_array (low high : Z) (n : nat) : gen (list Z) :=
  repeat n (randint low high).

(** [torch.randint(low=low, high=high, size=(n,))] *)
Definition torch_randint (low high : Z) (n : nat) : gen pyval :=
  data ← repeat n (randint low high); mret (VTensor [n] data).

End Source.

End Rng.

(** The data of the notebook: [rand_boxes], [rand_target] and the three
    dataset classes. *)
Module Data.

(** Indexing a list or an array with a Python integer: a negative index
    counts from the end. *)
Definition index_z {A} (items : list A) (idx : Z) : result A :=
  let n := Z.of_nat (length items) in
  let i := if decide (idx < 0)%Z then (idx + n)%Z else idx in
  if decide (0 ≤ i < n)%Z then Py.index items (Z.to_nat i) else Raise IndexError.

(** The state of a dataset object: [self.imgs] and [self.targets]. *)
Record dataset := Dataset {
  imgs : list pyval;
  targets : list pyval
}.

(** [__getitem__], the same in the three classes. *)
Definition getitem (self : dataset) (idx : Z) : result pyval :=
  img ← index_z (imgs self) idx;
  target ← index_z (targets self) idx;
  Ok (VTuple [img; target]).

(** [__len__], the same in the three classes. *)
Definition len (self : dataset) : nat := length (targets self).

(** [[dataset[i] for i in indices]], the samples a loader hands to the
    collation callback. *)
Definition fetch (self : dataset) (indices : list Z) : result pyval :=
  samples ← mapM (getitem self) indices; Ok (VList samples).

Section Source.

Variable draws : nat → Z.

(** The float operations [0.9 * x] and [x + 0.1] on the elements. *)
Variable scale shift : Z → Z.

(** The box [[x1, y1, x2, y2]] made from the two draws at cursor [pos]:
    the scaled draws and the same shifted. *)
Definition box_at (pos : nat) : list Z :=
  let x1 := scale (draws pos) in
  let y1 := scale (draws (S pos)) in
  [x1; y1; shift x1; shift y1].

Definition rand_boxes (n : nat) : Rng.gen pyval :=
  r ← Rng.rand draws [n; 2];
  xy1 ← Rng.lift (Tensor.map scale r);
  xy2 ← Rng.lift (Tensor.map shift xy1);
  Rng.lift (Tensor.cat [xy1; xy2] 1).

Definition rand_target : Rng.gen pyval :=
  n_objects ← Rng.randint draws 1 10;
  boxes ← rand_boxes (Z.to_nat n_objects);
  labels ← Rng.torch_randint draws 0 91 (Z.to_nat n_objects);
  mret (VDict [(KStr "boxes", boxes); (KStr "labels", labels)]).

(** [TensorIntDataset.__init__]; the array of targets is kept as the list
    of its integers. *)
Definition TensorIntDataset (n_samples : nat) : Rng.gen dataset :=
  imgs ← Rng.repeat n_samples (Rng.rand draws [3; 2; 2]);
  targets ← Rng.randint_array draws 0 9 n_samples;
  mret (Dataset imgs (VInt <$> targets)).

(** [TensorDictDataset.__init__] *)
Definition TensorDictDataset (n_samples : nat) : Rng.gen dataset :=
  imgs ← Rng.repeat n_samples (Rng.rand draws [3; 2; 2]);
  targets ← Rng.repeat n_samples
    (label ← Rng.randint draws 0 9;
     other_value ← Rng.randint draws 0 9;
     mret (VDict [(KStr "label", VInt label);
                  (KStr "other_value", VInt other_value)]));
  mret (Dataset imgs targets).

(** [DetectionDataset.__init__] *)
Definition DetectionDataset (n_samples : nat) : Rng.gen dataset :=
  imgs ← Rng.repeat n_samples (Rng.rand draws [3; 2; 2]);
  targets ← Rng.repeat n_samples rand_target;
  mret (Dataset imgs targets).

End Source.

End Data.

(** A random computation returns, from every cursor, a value with the
    property [P]. *)
Definition returns {A} (m : Rng.gen A) (P : A → Prop) : Prop :=
  ∀ pos, ∃ pos' a, m pos = (pos', Ok a) ∧ P a.

#[global] Instance pyval_inhabited : Inhabited pyval := populate (VInt 0).

(** What the items of the datasets look like: an image is a tensor of
    shape (3, 2, 2); the targets are an integer below 9, a mapping of two
    such integers, or the mapping of [rand_target]. *)
Definition is_image (v : pyval) : Prop :=
  ∃ data, v = VTensor [3; 2; 2] data ∧ length data = 12.

Definition int_target (v : pyval) : Prop :=
  ∃ z, v = VInt z ∧ (0 ≤ z < 9)%Z.

Definition dict_target (v : pyval) : Prop :=
  ∃ label other_value,
    v = VDict [(KStr "label", VInt label);
               (KStr "other_value", VInt other_value)] ∧
    (0 ≤ label < 9)%Z ∧ (0 ≤ other_value < 9)%Z.

Definition detection_target (v : pyval) : Prop :=
  ∃ n_objects boxes labels,
    v = VDict [(KStr "boxes", VTensor [n_objects; 4] boxes);
               (KStr "labels", VTensor [n_objects] labels)] ∧
    1 ≤ n_objects ≤ 9 ∧
    length boxes = n_objects * 4 ∧ length labels = n_objects ∧
    Forall (λ z, (0 ≤ z < 91)%Z) labels.

(** A dataset of [n] images and [n] targets with the property [P]. *)
Definition built (n : nat) (P : pyval → Prop) (self : Data.dataset) : Prop :=
  length (Data.imgs self) = n ∧ length (Data.targets self) = n ∧
  Forall is_image (Data.imgs self) ∧ Forall P (Data.targets self).

(** The indices [__getitem__] accepts on [n] items, and the position an
    accepted index stands for. *)
Definition in_range (n : nat) (idx : Z) : Prop :=
  (- Z.of_nat n ≤ idx < Z.of_nat n)%Z.

Definition position (n : nat) (idx : Z) : nat :=
  Z.to_nat (idx `mod` Z.of_nat n).

(** What collating the items of [self] at [indices] gives when the targets
    are mappings.  [datas] are the contents of the images at [indices], in
    that order; the stacked tensor holds them one after the other, so that
    its row [k] is the image at the [k]-th index. *)
Definition collates_mappings (default_collate : pyval → result pyval)
    (n : nat) (self : Data.dataset) : Prop :=
  ∀ indices : list Z,
    indices ≠ [] → Forall (in_range n) indices →
    ∃ batch (datas : list (list Z)),
      let imgs := (λ idx, Data.imgs self !!! position n idx) <$> indices in
      let targets := (λ idx, Data.targets self !!! position n idx) <$> indices in
      let stacked := VTensor (length indices :: [3; 2; 2]) (concat datas) in
      Data.fetch self indices = Ok batch ∧
      imgs = VTensor [3; 2; 2] <$> datas ∧
      custom_collate default_collate batch =
        Ok (VTuple [stacked; VList targets]) ∧
      (∀ k img, imgs !! k = Some img → Py.getitem stacked k = Ok img) ∧
      custom_detection_collate default_collate batch =
        Ok (VTuple [VList imgs; VList targets]).

(** What collating the items of [self] at [indices] gives when the targets
    are integers: both callbacks hand the batch to the resolver. *)
Definition delegates_integers (default_collate : pyval → result pyval)
    (n : nat) (self : Data.dataset) : Prop :=
  ∀ indices : list Z,
    indices ≠ [] → Forall (in_range n) indices →
    ∃ batch,
      Data.fetch self indices = Ok batch ∧
      dispatch batch = Ok false ∧
      custom_collate default_collate batch = default_collate batch ∧
      custom_detection_collate default_collate batch = default_collate batch.

(** What the resolver of the spec returns on such a batch: the images
    stacked and the targets in a 1-D array.  [datas] are the contents of the
    images at [indices] and [targets] the integers there, in that order; row
    [k] of the stacked tensor is the image at the [k]-th index. *)
Definition default_stacks_integers (n : nat) (self : Data.dataset) : Prop :=
  ∀ indices : list Z,
    indices ≠ [] → Forall (in_range n) indices →
    ∃ batch (datas : list (list Z)) (targets : list Z),
      let imgs := (λ idx, Data.imgs self !!! position n idx) <$> indices in
      let stacked := VTensor (length indices :: [3; 2; 2]) (concat datas) in
      Data.fetch self indices = Ok batch ∧
      imgs = VTensor [3; 2; 2] <$> datas ∧
      (λ idx, Data.targets self !!! position n idx) <$> indices =
        VInt <$> targets ∧
      Torch.default_collate batch =
        Ok (VTuple [stacked; VTensor [length indices] targets]) ∧
      (∀ k img, imgs !! k = Some img → Py.getitem stacked k = Ok img).

(** ** Basic facts *)

Lemma bind_Ok {A B} (f : A → result B) (a : A) : (Ok a ≫= f) = f a.
Proof. reflexivity. Qed.

Lemma mapM_Ok {A B} (f : A → result B) (g : A → B) (l : list A) :
  (∀ a, a ∈ l → f a = Ok (g a)) → mapM f l = Ok (g <$> l).
Proof.
  induction l as [|a l IH]; intros Hf; [reflexivity|].
  cbn [mapM]. rewrite (Hf a) by left. cbn.
  rewrite IH; [reflexivity|]. intros b Hb. apply Hf. by right.
Qed.

Lemma mapM_fmap {A B C} (f : B → result C) (g : A → B) (l : list A) :
  mapM f (g <$> l) = mapM (f ∘ g) l.
Proof.
  induction l as [|a l IH]; [reflexivity|].
  cbn [fmap list_fmap mapM]. cbn [fmap list_fmap] in IH. by rewrite IH.
Qed.

Lemma imgs_of_batch samples : imgs_of (batch_of samples) = Ok (fst <$> samples).
Proof.
  unfold imgs_of, batch_of. cbn [Py.iter]. rewrite bind_Ok, mapM_fmap.
  apply mapM_Ok. by intros [img target] _.
Qed.

Lemma targets_of_batch samples :
  targets_of (batch_of samples) = Ok (snd <$> samples).
Proof.
  unfold targets_of, batch_of. cbn [Py.iter]. rewrite bind_Ok, mapM_fmap.
  apply mapM_Ok. by intros [img target] _.
Qed.

Lemma list_branch_batch samples :
  list_branch (batch_of samples) =
  Ok (VTuple [VList (fst <$> samples); VList (snd <$> samples)]).
Proof. unfold list_branch. by rewrite imgs_of_batch, targets_of_batch. Qed.

Lemma forallb_same_shape shape (datas : list (list Z)) :
  forallb (λ t : list nat * list Z, bool_decide (t.1 = shape))
          ((λ data, (shape, data)) <$> datas) = true.
Proof.
  induction datas as [|data datas IH]; [reflexivity|].
  cbn. rewrite bool_decide_eq_true_2 by reflexivity. exact IH.
Qed.

Lemma stack_uniform shape (datas : list (list Z)) :
  datas ≠ [] →
  Torch.stack (VTensor shape <$> datas) =
  Ok (VTensor (length datas :: shape) (concat datas)).
Proof.
  intros Hne. unfold Torch.stack.
  rewrite mapM_fmap, (mapM_Ok _ (λ data, (shape, data))) by done.
  destruct datas as [|data datas]; [done|].
  rewrite bind_Ok. cbn [fmap list_fmap].
  change (forallb _ _) with
    (forallb (λ t : list nat * list Z, bool_decide (t.1 = shape))
             ((λ data, (shape, data)) <$> (data :: datas))).
  rewrite forallb_same_shape.
  change ((shape, data) :: _) with ((λ data, (shape, data)) <$> (data :: datas)).
  rewrite length_fmap, <- list_fmap_compose.
  do 3 f_equal. by rewrite list_fmap_id.
Qed.

(** Indexing the stacked tensor along its new dimension gives the inputs
    back. *)
Lemma getitem_stacked shape (datas : list (list Z)) i data :
  Forall (λ d, length d = Py.numel shape) datas →
  datas !! i = Some data →
  Py.getitem (VTensor (length datas :: shape) (concat datas)) i =
  Ok (VTensor shape data).
Proof.
  intros Hlen Hdata. cbn [Py.getitem].
  rewrite decide_True by by eapply lookup_lt_Some.
  unfold Py.subtensor. do 2 f_equal.
  revert i Hdata. induction Hlen as [|d datas Hd _ IH]; intros i Hdata;
    [done|].
  destruct i as [|i]; cbn [concat].
  - injection Hdata as ->. cbn. rewrite <- Hd. apply take_app_length.
  - cbn in Hdata. rewrite <- (IH i Hdata). f_equal. cbn [Nat.mul].
    rewrite <- Hd at 1. rewrite <- drop_drop. by rewrite drop_app_length.
Qed.

Lemma stack_branch_batch samples shape (datas : list (list Z)) :
  samples ≠ [] →
  fst <$> samples = VTensor shape <$> datas →
  stack_branch (batch_of samples) =
  Ok (VTuple [VTensor (length samples :: shape) (concat datas);
              VList (snd <$> samples)]).
Proof.
  intros Hne Himgs. unfold stack_branch.
  rewrite imgs_of_batch, targets_of_batch, bind_Ok, Himgs.
  assert (length datas = length samples) as Hlen.
  { by rewrite <- (length_fmap (VTensor shape)), <- Himgs, length_fmap. }
  rewrite stack_uniform, Hlen; [reflexivity|].
  intros ->. by destruct samples.
Qed.

Lemma dispatch_attributes batch :
  dispatch batch =
  if Py.isinstance_list batch then
    n ← first_len batch;
    if decide (n = 2) then first_second_is_dict batch else Ok false
  else Ok false.
Proof.
  unfold dispatch, first_len, first_second_is_dict.
  destruct (Py.isinstance_list batch); [|reflexivity].
  destruct (Py.getitem batch 0) as [first|e]; reflexivity.
Qed.

Lemma dispatch_first_only first rest rest' :
  dispatch (VList (first :: rest)) = dispatch (VList (first :: rest')).
Proof. reflexivity. Qed.

Lemma dispatch_true batch :
  dispatch batch = Ok true ↔
  ∃ first rest second,
    batch = VList (first :: rest) ∧ Py.len first = Ok 2 ∧
    Py.getitem first 1 = Ok second ∧ Py.isinstance_dict second = true.
Proof.
  split.
  - unfold dispatch. destruct batch as [| | | |items|]; try discriminate.
    destruct items as [|first rest]; [discriminate|]. cbn.
    destruct (Py.len first) as [n|] eqn:Hlen; [|discriminate]. cbn.
    destruct (decide (n = 2)) as [->|]; [|discriminate].
    destruct (Py.getitem first 1) as [second|] eqn:Hsecond; [|discriminate].
    cbn. intros [= Hdict]. by exists first, rest, second.
  - intros (first & rest & second & -> & Hlen & Hsecond & Hdict).
    unfold dispatch. cbn. rewrite Hlen. cbn. rewrite Hsecond. cbn.
    by rewrite Hdict.
Qed.

Lemma dispatch_false batch : dispatch batch = Ok false ↔ delegated batch.
Proof.
  unfold delegated, dispatch. split.
  - destruct (Py.isinstance_list batch); [|by left].
    destruct (Py.getitem batch 0) as [first|]; [|discriminate]. cbn.
    destruct (Py.len first) as [n|] eqn:Hlen; [|discriminate]. cbn.
    intros H. right. exists first, n. do 2 (split; [done|]).
    destruct (decide (n = 2)); [|by left].
    destruct (Py.getitem first 1) as [second|] eqn:Hsecond; [|discriminate].
    cbn in H. injection H as H. right. by exists second.
  - intros [->|(first & n & -> & Hlen & H)]; [done|].
    destruct (Py.isinstance_list batch); [|done]. cbn. rewrite Hlen. cbn.
    destruct H as [Hn|(second & Hsecond & Hdict)].
    + by rewrite decide_False.
    + destruct (decide (n = 2)); [|done]. rewrite Hsecond. cbn. by rewrite Hdict.
Qed.

Lemma dispatch_batch_of x d rest :
  dispatch (batch_of ((x, VDict d) :: rest)) = Ok true.
Proof. reflexivity. Qed.

Lemma matched_batch_of batch :
  matched batch = true ↔ ∃ x d rest, batch = batch_of ((x, VDict d) :: rest).
Proof.
  split.
  - destruct batch as [| | | |items|]; try discriminate.
    destruct items as [|first others]; [discriminate|].
    destruct first as [| | |[|x [|[| | | | |d] [|]]]| |]; try discriminate.
    cbn. intros Hpairs. exists x, d.
    enough (∃ rest, others = pair_sample <$> rest) as [rest ->]
      by by exists rest.
    induction others as [|s others IH]; [by exists []|].
    cbn in Hpairs. apply andb_prop in Hpairs as [Hs Hothers].
    destruct (IH Hothers) as [rest ->].
    destruct s as [| | |[|a [|b [|]]]| |]; try discriminate.
    by exists ((a, b) :: rest).
  - intros (x & d & rest & ->). cbn.
    induction rest as [|[a b] rest IH]; [reflexivity|exact IH].
Qed.

(** C8: on the empty list both callbacks raise IndexError, whatever the
    default resolver is: [batch[0]] fails inside the test of the [if]. *)
Theorem empty_batch_raises (default_collate : pyval → result pyval) :
  Py.getitem (VList []) 0 = Raise IndexError ∧
  dispatch (VList []) = Raise IndexError ∧
  custom_collate default_collate (VList []) = Raise IndexError ∧
  custom_detection_collate default_collate (VList []) = Raise IndexError.
Proof. repeat split. Qed.

(** ** The custom branch *)

Lemma custom_detection_collate_pairs (default_collate : pyval → result pyval)
    (x : pyval) (d : list (key * pyval)) (rest : list (pyval * pyval)) :
  let samples := (x, VDict d) :: rest in
  custom_detection_collate default_collate (batch_of samples) =
  Ok (VTuple [VList (fst <$> samples); VList (snd <$> samples)]).
Proof.
  intros samples. unfold custom_detection_collate, samples.
  rewrite dispatch_batch_of, bind_Ok. apply list_branch_batch.
Qed.

Lemma custom_collate_pairs (default_collate : pyval → result pyval)
    (x : pyval) (d : list (key * pyval)) (rest : list (pyval * pyval))
    (shape : list nat) (datas : list (list Z)) :
  let samples := (x, VDict d) :: rest in
  fst <$> samples = VTensor shape <$> datas →
  custom_collate default_collate (batch_of samples) =
  Ok (VTuple [VTensor (length samples :: shape) (concat datas);
              VList (snd <$> samples)]).
Proof.
  intros samples Himgs. unfold custom_collate, samples.
  rewrite dispatch_batch_of, bind_Ok. by apply stack_branch_batch.
Qed.

(** C1, as the code has it: a batch whose first sample is a 2-element tuple
    with a mapping as second element takes the custom branch in both
    callbacks, and the custom branch is taken exactly when the batch is a
    list, its first sample has length 2 and the element at index 1 of the
    first sample is a dict; the samples after the first are not inspected.
    On a list of 2-element tuples [custom_detection_collate] returns the
    list of inputs and the list of per-sample annotations in sample order;
    [custom_collate] returns the same targets with the inputs stacked when
    the inputs are tensors of one shape. *)
Theorem custom_branch_taken (default_collate : pyval → result pyval)
    (x : pyval) (d : list (key * pyval)) (rest : list (pyval * pyval)) :
  let samples := (x, VDict d) :: rest in
  let batch := batch_of samples in
  matched batch = true ∧
  dispatch batch = Ok true ∧
  (∀ b, dispatch b = Ok true ↔
        ∃ first others second,
          b = VList (first :: others) ∧ Py.len first = Ok 2 ∧
          Py.getitem first 1 = Ok second ∧ Py.isinstance_dict second = true) ∧
  custom_detection_collate default_collate batch =
    Ok (VTuple [VList (fst <$> samples); VList (snd <$> samples)]) ∧
  (∀ shape (datas : list (list Z)),
     fst <$> samples = VTensor shape <$> datas →
     custom_collate default_collate batch =
       Ok (VTuple [VTensor (length samples :: shape) (concat datas);
                   VList (snd <$> samples)])).
Proof.
  intros samples batch. split; [|split; [|split; [|split]]].
  - apply matched_batch_of. by exists x, d, rest.
  - apply dispatch_batch_of.
  - apply dispatch_true.
  - apply custom_detection_collate_pairs.
  - apply custom_collate_pairs.
Qed.

Lemma custom_branch_taken_witness :
  custom_collate Torch.default_collate
    (batch_of [(VTensor [2] [1; 2]%Z, VDict [(KStr "label", VInt 4)]);
               (VTensor [2] [3; 4]%Z, VDict [(KStr "label", VInt 2)])]) =
  Ok (VTuple [VTensor [2; 2] [1; 2; 3; 4]%Z;
              VList [VDict [(KStr "label", VInt 4)];
                     VDict [(KStr "label", VInt 2)]]]).
Proof.
  apply (proj2 (proj2 (proj2 (proj2
    (custom_branch_taken Torch.default_collate (VTensor [2] [1; 2]%Z)
       [(KStr "label", VInt 4)]
       [(VTensor [2] [3; 4]%Z, VDict [(KStr "label", VInt 2)])]))))
    [2] [[1; 2]; [3; 4]]%Z).
  reflexivity.
Defined.

(** The custom branch is also taken off the condition of C1: in [batch]
    the second sample is a 3-element tuple, the test of the [if] still
    holds and the comprehension fails to unpack that sample.  And on the
    condition of C1 the stacked variant need not return: the inputs of
    [mixed] have two shapes. *)
Lemma custom_branch_beyond_pairs :
  let img := VTensor [1] [0%Z] in
  let batch := VList [VTuple [img; VDict []]; VTuple [img; VDict []; VInt 9]] in
  let mixed := VList [VTuple [img; VDict []];
                      VTuple [VTensor [2] [0; 0]%Z; VDict []]] in
  (matched batch = false ∧
   dispatch batch = Ok true ∧
   custom_collate Torch.default_collate batch = Raise ValueError ∧
   custom_detection_collate Torch.default_collate batch = Raise ValueError) ∧
  (matched mixed = true ∧
   dispatch mixed = Ok true ∧
   custom_collate Torch.default_collate mixed = Raise RuntimeError).
Proof. repeat split. Qed.

(** C2: on a non-empty batch of 2-element tuples whose second elements are
    mappings, whatever the lengths of the arrays they hold,
    [custom_detection_collate] returns the list of the inputs and the list
    of the per-sample mappings, both unchanged and in the order of the
    batch. *)
Theorem detection_keeps_mappings (default_collate : pyval → result pyval)
    (samples : list (pyval * list (key * pyval))) (Hne : samples ≠ []) :
  custom_detection_collate default_collate
    (batch_of (prod_map id VDict <$> samples)) =
  Ok (VTuple [VList (fst <$> samples); VList (VDict ∘ snd <$> samples)]).
Proof.
  destruct samples as [|[x d] rest]; [done|].
  etrans; [exact (custom_detection_collate_pairs default_collate x d
                    (fmap (M:=list) (prod_map id VDict) rest))|].
  cbn [fmap list_fmap prod_map fst snd id compose]. do 5 f_equal.
  - rewrite <- list_fmap_compose. by apply list_fmap_ext; intros ? [??].
  - do 2 f_equal. rewrite <- list_fmap_compose. by apply list_fmap_ext; intros ? [??].
Qed.

Lemma detection_keeps_mappings_witness :
  let boxes1 := VTensor [1; 4] [1; 2; 3; 4]%Z in
  let boxes2 := VTensor [2; 4] [1; 2; 3; 4; 5; 6; 7; 8]%Z in
  let target1 := [(KStr "boxes", boxes1); (KStr "labels", VTensor [1] [12%Z])] in
  let target2 := [(KStr "boxes", boxes2); (KStr "labels", VTensor [2] [81; 7]%Z)] in
  let img1 := VTensor [1; 2] [5; 6]%Z in
  let img2 := VTensor [1; 2] [7; 8]%Z in
  custom_detection_collate Torch.default_collate
    (VList [VTuple [img1; VDict target1]; VTuple [img2; VDict target2]]) =
  Ok (VTuple [VList [img1; img2]; VList [VDict target1; VDict target2]]).
Proof.
  intros boxes1 boxes2 target1 target2 img1 img2.
  apply (detection_keeps_mappings Torch.default_collate
           [(img1, target1); (img2, target2)]).
  discriminate.
Defined.

(** C3: on a non-empty batch of 2-element tuples whose first sample has a
    mapping as second element, [custom_detection_collate] returns the pair
    of lists and never reaches the default resolver: the result is the same
    for every resolver, in particular for one that raises the shape-mismatch
    error on every batch. *)
Theorem detection_avoids_default (default_collate : pyval → result pyval)
    (x : pyval) (d : list (key * pyval)) (rest : list (pyval * pyval)) :
  let samples := (x, VDict d) :: rest in
  dispatch (batch_of samples) = Ok true ∧
  custom_detection_collate default_collate (batch_of samples) =
    Ok (VTuple [VList (fst <$> samples); VList (snd <$> samples)]) ∧
  custom_detection_collate default_collate (batch_of samples) =
    custom_detection_collate (λ _, Raise RuntimeError) (batch_of samples).
Proof.
  intros samples. split; [apply dispatch_batch_of|].
  split; [apply custom_detection_collate_pairs|].
  etrans; [apply custom_detection_collate_pairs|].
  symmetry. apply custom_detection_collate_pairs.
Qed.

(** C4, as the code has it: on a matched batch whose inputs are tensors of
    one shape, [custom_collate] returns the inputs stacked into one tensor
    with a new leading dimension of the batch size, [custom_detection_collate]
    returns them as a list, and both return the same list of targets. *)
Theorem stacked_versus_listed (default_collate : pyval → result pyval)
    (shape : list nat) (data : list Z) (d : list (key * pyval))
    (rest : list (list Z * pyval)) :
  let samples := (data, VDict d) :: rest in
  let batch := batch_of (prod_map (VTensor shape) id <$> samples) in
  matched batch = true ∧
  custom_collate default_collate batch =
    Ok (VTuple [VTensor (length samples :: shape) (concat (fst <$> samples));
                VList (snd <$> samples)]) ∧
  custom_detection_collate default_collate batch =
    Ok (VTuple [VList (VTensor shape ∘ fst <$> samples);
                VList (snd <$> samples)]).
Proof.
  intros samples batch.
  pose proof (custom_detection_collate_pairs default_collate
                (VTensor shape data) d (prod_map (VTensor shape) id <$> rest))
    as Hlist.
  pose proof (custom_collate_pairs default_collate
                (VTensor shape data) d (prod_map (VTensor shape) id <$> rest))
    as Hstack.
  assert (fst <$> (prod_map (VTensor shape) id <$> samples) =
          VTensor shape <$> (fst <$> samples)) as Hfst.
  { rewrite <- !list_fmap_compose. by apply list_fmap_ext; intros ? [??]. }
  assert (snd <$> (prod_map (VTensor shape) id <$> samples) = snd <$> samples)
    as Hsnd.
  { rewrite <- !list_fmap_compose. by apply list_fmap_ext; intros ? [??]. }
  split; [apply matched_batch_of; by eexists _, _, _|]. split.
  - etrans; [exact (Hstack shape (fst <$> samples) Hfst)|].
    cbn [length]. rewrite length_fmap. do 5 f_equal. exact Hsnd.
  - etrans; [exact Hlist|].
    change ((VTensor shape data, VDict d) :: (prod_map (VTensor shape) id <$> rest))
      with (prod_map (VTensor shape) id <$> samples).
    rewrite Hfst, Hsnd. by rewrite <- list_fmap_compose.
Qed.

(** Without a common shape the stacked variant raises on a matched batch on
    which the listed variant returns. *)
Lemma stack_rejects_mixed_shapes :
  let img1 := VTensor [1] [0%Z] in
  let img2 := VTensor [2] [0; 0]%Z in
  let batch := VList [VTuple [img1; VDict []]; VTuple [img2; VDict []]] in
  matched batch = true ∧
  custom_collate Torch.default_collate batch = Raise RuntimeError ∧
  custom_detection_collate Torch.default_collate batch =
    Ok (VTuple [VList [img1; img2]; VList [VDict []; VDict []]]).
Proof. repeat split. Qed.

(** ** Delegation to the default resolver *)

(** C5, as the code has it.  The test of the [if] evaluates to [False]
    exactly when the batch is not a list, or its first sample has a length
    other than 2, or its first sample has length 2 and an element at index 1
    that is not a dict; both callbacks then return exactly what the default
    resolver returns on the batch.  When evaluating the test raises, the
    batch is not among those, and both callbacks raise the exception of the
    test whatever the resolver is: the resolver is not called. *)
Theorem delegated_to_default (default_collate : pyval → result pyval)
    (batch : pyval) :
  (dispatch batch = Ok false ↔ delegated batch) ∧
  (delegated batch →
     custom_collate default_collate batch = default_collate batch ∧
     custom_detection_collate default_collate batch = default_collate batch) ∧
  (∀ e, dispatch batch = Raise e →
     ¬ delegated batch ∧
     ∀ resolver : pyval → result pyval,
       custom_collate resolver batch = Raise e ∧
       custom_detection_collate resolver batch = Raise e).
Proof.
  split; [apply dispatch_false|]. split.
  - intros Hbatch%dispatch_false.
    unfold custom_collate, custom_detection_collate. by rewrite Hbatch.
  - intros e Hraise. split.
    + intros Hbatch%dispatch_false. congruence.
    + intros resolver. unfold custom_collate, custom_detection_collate.
      by rewrite Hraise.
Qed.

Lemma delegated_to_default_witness :
  let batch := VList [VTuple [VTensor [2] [1; 2]%Z; VInt 3];
                      VTuple [VTensor [2] [3; 4]%Z; VInt 5]] in
  let scalars := VList [VInt 3; VInt 5] in
  (custom_collate Torch.default_collate batch =
     Ok (VTuple [VTensor [2; 2] [1; 2; 3; 4]%Z; VTensor [2] [3; 5]%Z]) ∧
   custom_detection_collate Torch.default_collate batch =
     Ok (VTuple [VTensor [2; 2] [1; 2; 3; 4]%Z; VTensor [2] [3; 5]%Z])) ∧
  (custom_collate (λ _, Ok (VInt 0)) scalars = Raise TypeError ∧
   custom_detection_collate (λ _, Ok (VInt 0)) scalars = Raise TypeError).
Proof.
  intros batch scalars. split.
  - refine (proj1 (proj2 (delegated_to_default Torch.default_collate batch)) _).
    right. exists (VTuple [VTensor [2] [1; 2]%Z; VInt 3]), 2.
    split; [reflexivity|]. split; [reflexivity|].
    right. exists (VInt 3). split; reflexivity.
  - exact (proj2 (proj2 (proj2 (delegated_to_default Torch.default_collate scalars))
                    TypeError eq_refl) (λ _, Ok (VInt 0))).
Defined.

(** A list of scalar samples is in the unmatched domain as C5 words it (its
    first sample is not of length 2), the default resolver turns it into a
    1-D array, and both callbacks raise instead: [len] has no value on the
    first sample. *)
Lemma scalar_samples_not_delegated :
  let batch := VList [VInt 3; VInt 5] in
  unmatched batch ∧
  Torch.default_collate batch = Ok (VTensor [2] [3; 5]%Z) ∧
  custom_collate Torch.default_collate batch = Raise TypeError ∧
  custom_detection_collate Torch.default_collate batch = Raise TypeError.
Proof.
  intros batch. split; [|by repeat split].
  right; left. exists (VInt 3). by split.
Qed.

(** ** Batches of one sample *)

(** C7, as the code has it: on a matched batch, for every index [i] whose
    sample has a mapping as its second element, the [i]-th elements of the
    two lists returned by [custom_detection_collate] are the only elements
    of the two lists it returns on the batch made of the [i]-th sample
    alone.  The other samples of the batch need not hold a mapping. *)
Theorem singleton_consistent (default_collate : pyval → result pyval)
    (batch : pyval) (i : nat) (x : pyval) (d : list (key * pyval))
    (Hmatched : matched batch = true)
    (Hsample : Py.getitem batch i = Ok (VTuple [x; VDict d])) :
  singleton_consistent_at default_collate batch i.
Proof.
  apply matched_batch_of in Hmatched as (x0 & d0 & rest & ->).
  set (samples := (x0, VDict d0) :: rest) in *.
  assert (samples !! i = Some (x, VDict d)) as Hpair.
  { unfold batch_of in Hsample. cbn [Py.getitem] in Hsample.
    unfold Py.index in Hsample. rewrite list_lookup_fmap in Hsample.
    destruct (samples !! i) as [[a b]|]; [|discriminate].
    cbn in Hsample. by injection Hsample as -> ->. }
  exists (VTuple [x; VDict d]), (VList (fst <$> samples)),
         (VList (snd <$> samples)), (VList [x]), (VList [VDict d]), x, (VDict d).
  split; [exact Hsample|].
  split; [exact (custom_detection_collate_pairs default_collate x0 d0 rest)|].
  split; [exact (custom_detection_collate_pairs default_collate x d [])|].
  cbn [Py.getitem]. unfold Py.index.
  by rewrite !list_lookup_fmap, Hpair.
Qed.

Lemma singleton_consistent_witness :
  let target := VDict [(KStr "labels", VTensor [2] [81; 7]%Z)] in
  let img := VTensor [1] [5%Z] in
  let batch := VList [VTuple [img; VDict []]; VTuple [img; VInt 5];
                      VTuple [img; target]] in
  singleton_consistent_at Torch.default_collate batch 0 ∧
  singleton_consistent_at Torch.default_collate batch 2.
Proof.
  intros target img batch. split.
  - exact (singleton_consistent Torch.default_collate batch 0 img []
             eq_refl eq_refl).
  - exact (singleton_consistent Torch.default_collate batch 2 img
             [(KStr "labels", VTensor [2] [81; 7]%Z)] eq_refl eq_refl).
Defined.

(** A matched batch may hold a later sample whose annotation is not a
    mapping.  The whole batch is collated by the custom branch, but that
    sample alone is handed to the default resolver, which returns the
    fields of its annotation one by one instead of a list holding the
    annotation. *)
Lemma singleton_of_later_sample :
  let img := VTensor [1] [0%Z] in
  let sample := VTuple [img; VTuple [VInt 1; VInt 2]] in
  let batch := VList [VTuple [img; VDict []]; sample] in
  matched batch = true ∧
  custom_detection_collate Torch.default_collate batch =
    Ok (VTuple [VList [img; img]; VList [VDict []; VTuple [VInt 1; VInt 2]]]) ∧
  custom_detection_collate Torch.default_collate (VList [sample]) =
    Ok (VTuple [VTensor [1; 1] [0%Z];
                VTuple [VTensor [1] [1%Z]; VTensor [1] [2%Z]]]) ∧
  ¬ singleton_consistent_at Torch.default_collate batch 1.
Proof.
  intros img sample batch. do 3 (split; [reflexivity|]).
  intros (s & imgs & targets & imgs1 & targets1 & x & y &
          Hs & _ & Hone & _ & _ & _ & Hlen & _).
  injection Hs as <-. injection Hone as _ <-. discriminate Hlen.
Qed.

(** ** What the test reads *)

(** C9: the branch taken by both callbacks is determined by three readings
    of the batch: whether it is a list, the length of its first sample and
    whether the second element of its first sample is a dict.  Two batches
    with the same readings take the same branch; replacing the samples
    after the first never changes the branch; and a batch whose first
    sample is a pair with a dict runs the custom branch whatever its later
    samples are. *)
Theorem dispatch_reads_first_sample (default_collate : pyval → result pyval)
    (batch1 batch2 : pyval)
    (Hlist : Py.isinstance_list batch1 = Py.isinstance_list batch2)
    (Hlen : first_len batch1 = first_len batch2)
    (Hdict : first_second_is_dict batch1 = first_second_is_dict batch2) :
  dispatch batch1 = dispatch batch2 ∧
  (∀ first rest rest',
     dispatch (VList (first :: rest)) = dispatch (VList (first :: rest'))) ∧
  (∀ x d others,
     let batch := VList (VTuple [x; VDict d] :: others) in
     custom_collate default_collate batch = stack_branch batch ∧
     custom_detection_collate default_collate batch = list_branch batch).
Proof.
  split; [|split].
  - by rewrite !dispatch_attributes, Hlist, Hlen, Hdict.
  - apply dispatch_first_only.
  - by intros x d others.
Qed.

Lemma dispatch_reads_first_sample_witness :
  let img := VTensor [1] [0%Z] in
  let batch1 := VList [VTuple [img; VDict []]; VTuple [img; VDict []]] in
  let batch2 := VList [VTuple [img; VDict []]; VTuple [img; VInt 5]] in
  dispatch batch1 = dispatch batch2 ∧
  custom_detection_collate Torch.default_collate batch2 =
    Ok (VTuple [VList [img; img]; VList [VDict []; VInt 5]]).
Proof.
  intros img batch1 batch2.
  destruct (dispatch_reads_first_sample Torch.default_collate batch1 batch2
              eq_refl eq_refl eq_refl) as (Heq & _ & Hbranch).
  split; [exact Heq|].
  etrans; [exact (proj2 (Hbranch img [] [VTuple [img; VInt 5]]))|reflexivity].
Defined.

(** ** The default resolver on mappings *)

Lemma lookup_total_seq {A} `{Inhabited A} (l : list A) :
  (λ i, l !!! i) <$> seq 0 (length l) = l.
Proof.
  apply list_eq. intros i. rewrite list_lookup_fmap.
  destruct (decide (i < length l)) as [Hi|Hi].
  - rewrite lookup_seq_lt by done. cbn.
    destruct (lookup_lt_is_Some_2 l i Hi) as [x Hx].
    by rewrite (list_lookup_total_correct _ _ _ Hx).
  - rewrite lookup_seq_ge, lookup_ge_None_2 by lia. done.
Qed.

Lemma dict_get_column {A} (f : A → key) (g : A → pyval) (l : list A) (a : A) :
  NoDup (f <$> l) → a ∈ l →
  Py.dict_get ((λ a, (f a, g a)) <$> l) (f a) = Ok (g a).
Proof.
  induction l as [|b l IH]; intros Hnd Ha; [by apply elem_of_nil in Ha|].
  cbn in Hnd. apply NoDup_cons in Hnd as [Hb Hnd]. cbn.
  destruct (decide (f b = f a)) as [Heq|Hne].
  - apply elem_of_cons in Ha as [->|Ha]; [done|].
    exfalso. apply Hb. rewrite Heq. by apply list_elem_of_fmap_2.
  - apply elem_of_cons in Ha as [->|Ha]; [done|]. by apply IH.
Qed.

Lemma same_size_Ok size samples :
  (∀ s, s ∈ samples → Py.len s = Ok size) → Torch.same_size size samples = Ok ().
Proof.
  intros Hlen. unfold Torch.same_size.
  rewrite (mapM_Ok _ (λ _, size)) by done. rewrite bind_Ok.
  replace (forallb _ _) with true; [done|]. symmetry.
  apply forallb_forall. intros n Hn. apply bool_decide_eq_true.
  apply list_elem_of_In, list_elem_of_fmap in Hn. by destruct Hn as (? & -> & _).
Qed.

Lemma collate_dict_columns n cols cs :
  0 < n → NoDup (ckey <$> cols) → cs ⊆ cols →
  Forall (λ c, length (cdata c) = n) cs →
  Torch.collate_dict Torch.collate (target_at cols <$> seq 0 n)
    ((λ c, (ckey c, VTensor (cshape c) (cdata c !!! 0))) <$> cs) =
  Ok ((λ c, (ckey c, VTensor (n :: cshape c) (concat (cdata c)))) <$> cs).
Proof.
  intros Hn Hnd. induction cs as [|c cs IH]; intros Hsub Hlen; [reflexivity|].
  apply Forall_cons in Hlen as [Hc Hlen].
  cbn [fmap list_fmap Torch.collate_dict].
  rewrite mapM_fmap.
  rewrite (mapM_Ok _ (λ i, VTensor (cshape c) (cdata c !!! i))).
  2:{ intros i _. cbn. apply (dict_get_column ckey
        (λ c, VTensor (cshape c) (cdata c !!! i))); [done|].
      apply Hsub. by left. }
  rewrite bind_Ok. cbn [Torch.collate].
  change (λ i, VTensor (cshape c) (cdata c !!! i))
    with (VTensor (cshape c) ∘ (λ i, cdata c !!! i)).
  rewrite (list_fmap_compose (λ i, cdata c !!! i) (VTensor (cshape c))).
  rewrite <- Hc, lookup_total_seq, stack_uniform.
  2:{ intros Hnil. rewrite Hnil in Hc. cbn in Hc. lia. }
  rewrite bind_Ok. cbn [fmap list_fmap] in IH. rewrite Hc, IH; [done| |done].
  intros c' Hc'. apply Hsub. by right.
Qed.

(** C6: on a batch of samples each paired with a mapping whose arrays have,
    key by key, one shape across the samples, the default resolver returns
    one mapping with one entry per key, the value of a key being the arrays
    of that key stacked across the samples; it is a mapping, not a list of
    the per-sample mappings. *)
Theorem default_collate_merges_mappings (n : nat) (ishape : list nat)
    (imgs : list (list Z)) (cols : list column)
    (Hn : 0 < n) (Himgs : length imgs = n)
    (Hkeys : NoDup (ckey <$> cols))
    (Hcols : Forall (λ c, length (cdata c) = n) cols) :
  Torch.default_collate (uniform_batch n ishape imgs cols) =
    Ok (VTuple [VTensor (n :: ishape) (concat imgs); stacked_target n cols]) ∧
  Py.isinstance_dict (stacked_target n cols) = true ∧
  Py.isinstance_list (stacked_target n cols) = false.
Proof.
  split; [|done].
  unfold Torch.default_collate, uniform_batch.
  destruct n as [|n]; [lia|]. cbn [Py.getitem Py.iter].
  unfold Py.index. rewrite list_lookup_fmap, lookup_seq_lt by lia.
  cbn [fmap option_fmap option_map]. rewrite !bind_Ok.
  set (samples := _ <$> seq 0 (S n)).
  assert (mapM (λ s, Py.getitem s 0) samples = Ok (VTensor ishape <$> imgs))
    as Hcol0.
  { unfold samples. rewrite mapM_fmap.
    rewrite (mapM_Ok _ (VTensor ishape ∘ (λ i, imgs !!! i))) by done.
    by rewrite list_fmap_compose, <- Himgs, lookup_total_seq. }
  assert (mapM (λ s, Py.getitem s 1) samples = Ok (target_at cols <$> seq 0 (S n)))
    as Hcol1.
  { unfold samples. rewrite mapM_fmap. by apply mapM_Ok. }
  cbn [Torch.collate length].
  rewrite same_size_Ok.
  2:{ intros s Hs. apply list_elem_of_fmap in Hs. by destruct Hs as (i & -> & _). }
  rewrite bind_Ok. cbn [Torch.collate_seq].
  rewrite Hcol0, Hcol1, !bind_Ok. cbn [Torch.collate].
  rewrite stack_uniform by (intros ->; discriminate).
  rewrite bind_Ok. unfold target_at at 1. cbn [Torch.collate].
  rewrite collate_dict_columns by done.
  by rewrite Himgs.
Qed.

Lemma default_collate_merges_mappings_witness :
  Torch.default_collate
    (VList [VTuple [VTensor [2] [1; 2]%Z;
                    VDict [(KStr "boxes", VTensor [1; 2] [5; 6]%Z);
                           (KStr "labels", VTensor [1] [12%Z])]];
            VTuple [VTensor [2] [3; 4]%Z;
                    VDict [(KStr "boxes", VTensor [1; 2] [7; 8]%Z);
                           (KStr "labels", VTensor [1] [81%Z])]]]) =
  Ok (VTuple [VTensor [2; 2] [1; 2; 3; 4]%Z;
              VDict [(KStr "boxes", VTensor [2; 1; 2] [5; 6; 7; 8]%Z);
                     (KStr "labels", VTensor [2; 1] [12; 81]%Z)]]).
Proof.
  refine (proj1 (default_collate_merges_mappings 2 [2] [[1; 2]; [3; 4]]%Z
    [Column (KStr "boxes") [1; 2] [[5; 6]; [7; 8]]%Z;
     Column (KStr "labels") [1] [[12]; [81]]%Z] _ _ _ _)).
  - lia.
  - reflexivity.
  - cbn. apply NoDup_cons. split; [|apply NoDup_singleton].
    intros Hin. by apply list_elem_of_singleton in Hin.
  - repeat constructor.
Defined.

(** The run recorded in the notebook (section 1.2): scalar fields give 1-D
    arrays. *)
Example default_collate_scalar_fields :
  Torch.default_collate
    (VList [VTuple [VTensor [1] [0%Z];
                    VDict [(KStr "label", VInt 1); (KStr "other_value", VInt 2)]];
            VTuple [VTensor [1] [0%Z];
                    VDict [(KStr "label", VInt 5); (KStr "other_value", VInt 3)]]]) =
  Ok (VTuple [VTensor [2; 1] [0; 0]%Z;
              VDict [(KStr "label", VTensor [2] [1; 5]%Z);
                     (KStr "other_value", VTensor [2] [2; 3]%Z)]]).
Proof. reflexivity. Qed.

Section StoreFacts.
Import Store.

Lemma run_bind {A B} (m : eval A) (f : A → eval B) h h' a :
  m h = (h', Ok a) → (m ≫= f) h = f a h'.
Proof. intros Hm. unfold mbind, eval_bind, bind. by rewrite Hm. Qed.

Lemma run_deref h l o : h !! l = Some o → deref l h = (h, Ok o).
Proof. intros Hl. unfold deref. by rewrite (lookup_total_correct _ _ _ Hl). Qed.

Lemma keeps_ret {A} (a : A) : keeps (ret a).
Proof. by intros h. Qed.

Lemma keeps_raise {A} e : keeps (raise (A:=A) e).
Proof. by intros h. Qed.

Lemma keeps_lift {A} (r : result A) : keeps (lift r).
Proof. by intros h. Qed.

Lemma keeps_deref l : keeps (deref l).
Proof. by intros h. Qed.

Lemma keeps_alloc o : keeps (alloc o).
Proof.
  intros h. cbn. apply insert_subseteq, not_elem_of_dom, is_fresh.
Qed.

Lemma keeps_bind {A B} (m : eval A) (f : A → eval B) :
  keeps m → (∀ a, keeps (f a)) → keeps (m ≫= f).
Proof.
  intros Hm Hf h. unfold mbind, eval_bind, bind.
  specialize (Hm h). destruct (m h) as [h' [a|e]]; [|exact Hm].
  etrans; [exact Hm|apply Hf].
Qed.

Lemma keeps_for_each {A B} (f : A → eval B) (l : list A) :
  (∀ a, keeps (f a)) → keeps (for_each f l).
Proof.
  intros Hf. induction l as [|a l IH]; [apply keeps_ret|].
  cbn [for_each]. apply keeps_bind; [apply Hf|]. intros b.
  apply keeps_bind; [exact IH|]. intros bs. apply keeps_ret.
Qed.

End StoreFacts.

Create HintDb keeps discriminated.
#[global] Hint Resolve keeps_ret keeps_raise keeps_lift keeps_deref keeps_alloc
  keeps_for_each : keeps.

(** Splits a computation at its binds and case distinctions. *)
Ltac keeps_step :=
  match goal with
  | |- Store.keeps (_ ≫= _) => apply keeps_bind; [|intros ?]
  | |- Store.keeps (match ?x with _ => _ end) => destruct x
  | |- Store.keeps _ => solve [eauto with keeps]
  end.

Section StoreFrame.
Import Store.

Lemma keeps_len v : keeps (len v).
Proof. unfold len. repeat keeps_step. Qed.

Lemma keeps_getitem v i : keeps (getitem v i).
Proof. unfold getitem. repeat keeps_step. Qed.

Lemma keeps_iter v : keeps (iter v).
Proof. unfold iter. repeat keeps_step. Qed.

Lemma keeps_unpack2 v : keeps (unpack2 v).
Proof.
  unfold unpack2. apply keeps_bind; [apply keeps_iter|].
  intros [|a [|b [|c items]]]; eauto with keeps.
Qed.

Lemma keeps_as_tensor v : keeps (as_tensor v).
Proof. unfold as_tensor. repeat keeps_step. Qed.

Lemma keeps_stack tensors : keeps (stack tensors).
Proof.
  unfold stack. apply keeps_bind.
  - apply keeps_for_each, keeps_as_tensor.
  - intros [|[shape data] ts]; repeat keeps_step.
Qed.

Lemma keeps_dispatch batch : keeps (dispatch batch).
Proof.
  pose proof keeps_len. pose proof keeps_getitem.
  unfold dispatch. repeat keeps_step.
Qed.

Lemma keeps_imgs_of batch : keeps (imgs_of batch).
Proof.
  unfold imgs_of. apply keeps_bind; [apply keeps_iter|]. intros samples.
  apply keeps_for_each. intros sample.
  apply keeps_bind; [apply keeps_unpack2|]. intros p. apply keeps_ret.
Qed.

Lemma keeps_targets_of batch : keeps (targets_of batch).
Proof.
  unfold targets_of. apply keeps_bind; [apply keeps_iter|]. intros samples.
  apply keeps_for_each. intros sample.
  apply keeps_bind; [apply keeps_unpack2|]. intros p. apply keeps_ret.
Qed.

Lemma keeps_stack_branch batch : keeps (stack_branch batch).
Proof.
  pose proof keeps_imgs_of. pose proof keeps_targets_of. pose proof keeps_stack.
  unfold stack_branch. repeat keeps_step.
Qed.

Lemma keeps_list_branch batch : keeps (list_branch batch).
Proof.
  pose proof keeps_imgs_of. pose proof keeps_targets_of.
  unfold list_branch. repeat keeps_step.
Qed.

Lemma keeps_stack_batch batch : keeps (stack_batch batch).
Proof.
  unfold stack_batch. apply keeps_bind; [apply keeps_iter|]. apply keeps_stack.
Qed.

Variable default_collate : loc → eval loc.
Hypothesis keeps_default : ∀ batch, keeps (default_collate batch).

Lemma keeps_custom_collate batch : keeps (custom_collate default_collate batch).
Proof.
  unfold custom_collate. apply keeps_bind; [apply keeps_dispatch|].
  intros [|]; [apply keeps_stack_branch|apply keeps_default].
Qed.

Lemma keeps_custom_detection_collate batch :
  keeps (custom_detection_collate default_collate batch).
Proof.
  unfold custom_detection_collate. apply keeps_bind; [apply keeps_dispatch|].
  intros [|]; [apply keeps_list_branch|apply keeps_default].
Qed.

End StoreFrame.

(** Runs the computation at the head of a bind with the equation [H]. *)
Ltac run_head H :=
  let Hrun := fresh "Hrun" in
  pose proof H as Hrun; rewrite (run_bind _ _ _ _ _ Hrun); clear Hrun.

Section StoreRuns.
Import Store.

Lemma run_getitem_list h v items i x :
  h !! v = Some (OList items) → items !! i = Some x →
  getitem v i h = (h, Ok x).
Proof.
  intros Hv Hx. unfold getitem. rewrite (run_bind _ _ _ _ _ (run_deref _ _ _ Hv)).
  unfold Py.index. by rewrite Hx.
Qed.

Lemma run_getitem_tuple h v items i x :
  h !! v = Some (OTuple items) → items !! i = Some x →
  getitem v i h = (h, Ok x).
Proof.
  intros Hv Hx. unfold getitem. rewrite (run_bind _ _ _ _ _ (run_deref _ _ _ Hv)).
  unfold Py.index. by rewrite Hx.
Qed.

Lemma run_len_tuple h v items :
  h !! v = Some (OTuple items) → len v h = (h, Ok (length items)).
Proof.
  intros Hv. unfold len. by rewrite (run_bind _ _ _ _ _ (run_deref _ _ _ Hv)).
Qed.

Lemma run_unpack2 h v a b :
  h !! v = Some (OTuple [a; b]) → unpack2 v h = (h, Ok (a, b)).
Proof.
  intros Hv. unfold unpack2, iter.
  rewrite (run_bind (deref v ≫= _) _ h h [a; b]); [done|].
  by rewrite (run_bind _ _ _ _ _ (run_deref _ _ _ Hv)).
Qed.

Lemma batch_at_mono h h' batch pairs :
  h ⊆ h' → batch_at h batch pairs → batch_at h' batch pairs.
Proof.
  intros Hsub (samples & Hbatch & Hsamples). exists samples. split.
  - exact (lookup_weaken _ _ _ _ Hbatch Hsub).
  - eapply Forall2_impl; [exact Hsamples|]. intros s p Hs. cbn.
    exact (lookup_weaken _ _ _ _ Hs Hsub).
Qed.

Lemma run_unpack_all {A} (g : loc * loc → A) h samples pairs :
  Forall2 (λ s p, h !! s = Some (OTuple [p.1; p.2])) samples pairs →
  for_each (λ sample, p ← unpack2 sample; ret (g p)) samples h =
  (h, Ok (g <$> pairs)).
Proof.
  induction 1 as [|s [a b] samples pairs Hs _ IH]; [reflexivity|].
  cbn [for_each].
  rewrite (run_bind _ _ h h (g (a, b))).
  2:{ by rewrite (run_bind _ _ _ _ _ (run_unpack2 _ _ _ _ Hs)). }
  by rewrite (run_bind _ _ h h (g <$> pairs)).
Qed.

Lemma run_imgs_of h batch pairs :
  batch_at h batch pairs → imgs_of batch h = (h, Ok pairs.*1).
Proof.
  intros (samples & Hbatch & Hsamples). unfold imgs_of, iter.
  rewrite (run_bind (deref batch ≫= _) _ h h samples).
  - by apply (run_unpack_all fst).
  - by rewrite (run_bind _ _ _ _ _ (run_deref _ _ _ Hbatch)).
Qed.

Lemma run_targets_of h batch pairs :
  batch_at h batch pairs → targets_of batch h = (h, Ok pairs.*2).
Proof.
  intros (samples & Hbatch & Hsamples). unfold targets_of, iter.
  rewrite (run_bind (deref batch ≫= _) _ h h samples).
  - by apply (run_unpack_all snd).
  - by rewrite (run_bind _ _ _ _ _ (run_deref _ _ _ Hbatch)).
Qed.

Lemma run_dispatch h batch x y d rest :
  batch_at h batch ((x, y) :: rest) → h !! y = Some (ODict d) →
  dispatch batch h = (h, Ok true).
Proof.
  intros (samples & Hbatch & Hsamples) Hy.
  destruct samples as [|s samples]; [by apply Forall2_nil_cons_inv in Hsamples|].
  apply Forall2_cons_1 in Hsamples as [Hs _]. cbn in Hs.
  unfold dispatch.
  run_head (run_deref _ _ _ Hbatch). cbn [isinstance_list].
  run_head (run_getitem_list _ _ _ 0 s Hbatch eq_refl).
  run_head (run_len_tuple _ _ _ Hs). cbn [length].
  rewrite decide_True by done.
  run_head (run_getitem_list _ _ _ 0 s Hbatch eq_refl).
  run_head (run_getitem_tuple _ _ _ 1 y Hs eq_refl).
  by run_head (run_deref _ _ _ Hy).
Qed.

Lemma run_stack h tensors shape (datas : list (list Z)) :
  datas ≠ [] →
  Forall2 (λ t data, h !! t = Some (OTensor shape data)) tensors datas →
  stack tensors h =
  alloc (OTensor (length datas :: shape) (concat datas)) h.
Proof.
  intros Hne Htensors. unfold stack.
  rewrite (run_bind _ _ h h ((λ data, (shape, data)) <$> datas)).
  - destruct datas as [|data datas]; [done|]. cbn [fmap list_fmap].
    change (forallb _ _) with
      (forallb (λ t : list nat * list Z, bool_decide (t.1 = shape))
               ((λ data, (shape, data)) <$> (data :: datas))).
    rewrite forallb_same_shape.
    change ((shape, data) :: _) with ((λ data, (shape, data)) <$> (data :: datas)).
    rewrite length_fmap, <- list_fmap_compose. by rewrite list_fmap_id.
  - clear Hne. induction Htensors as [|t data tensors datas Ht _ IH];
      [reflexivity|].
    cbn [for_each].
    rewrite (run_bind _ _ h h (shape, data)).
    2:{ unfold as_tensor. by rewrite (run_bind _ _ _ _ _ (run_deref _ _ _ Ht)). }
    by rewrite (run_bind _ _ h h ((λ data, (shape, data)) <$> datas)).
Qed.

End StoreRuns.

Section StoreBranches.
Import Store.

Lemma fresh_above (h h' : heap) : h ⊆ h' → h !! fresh (dom h') = None.
Proof.
  intros Hsub. destruct (h !! fresh (dom h')) as [o|] eqn:Hl; [|done].
  exfalso. apply (is_fresh (dom h')), elem_of_dom.
  exists o. exact (lookup_weaken _ _ _ _ Hl Hsub).
Qed.

Lemma new_refs_chain (h : heap) o1 o2 :
  let l1 := fresh (dom h) in
  let h1 := <[l1 := o1]> h in
  let l2 := fresh (dom h1) in
  let h2 := <[l2 := o2]> h1 in
  let l3 := fresh (dom h2) in
  new_refs h [l1; l2; l3].
Proof.
  intros l1 h1 l2 h2 l3.
  assert (h ⊆ h1) as H1 by apply (keeps_alloc o1 h).
  assert (h1 ⊆ h2) as H2 by apply (keeps_alloc o2 h1).
  assert (h1 !! l1 = Some o1) as Hl1 by apply lookup_insert_eq.
  assert (h2 !! l2 = Some o2) as Hl2 by apply lookup_insert_eq.
  assert (h1 !! l2 = None) as Hn2 by by apply fresh_above.
  assert (h2 !! l3 = None) as Hn3 by by apply fresh_above.
  split.
  - repeat (apply NoDup_cons; split); [| |apply not_elem_of_nil|apply NoDup_nil_2].
    + intros Hin. apply elem_of_cons in Hin as [Heq|Hin].
      * rewrite <- Heq in Hn2. congruence.
      * apply list_elem_of_singleton in Hin. rewrite <- Hin in Hn3.
        pose proof (lookup_weaken _ _ _ _ Hl1 H2). congruence.
    + intros Hin. apply list_elem_of_singleton in Hin. rewrite <- Hin in Hn3.
      congruence.
  - repeat apply Forall_cons_2; [| | |apply Forall_nil_2].
    + by apply fresh_above.
    + by apply fresh_above.
    + apply fresh_above. by etrans.
Qed.

Lemma run_list_branch h batch pairs :
  batch_at h batch pairs →
  ∃ imgs targets r,
    new_refs h [imgs; targets; r] ∧
    list_branch batch h =
      (<[r := OTuple [imgs; targets]]>
         (<[targets := OList pairs.*2]> (<[imgs := OList pairs.*1]> h)), Ok r).
Proof.
  intros Hbatch.
  eexists _, _, _. split; [apply new_refs_chain|].
  unfold list_branch.
  rewrite (run_bind _ _ h (<[fresh (dom h) := OList pairs.*1]> h) (fresh (dom h))).
  2:{ by run_head (run_imgs_of _ _ _ Hbatch). }
  set (h1 := <[fresh (dom h) := OList pairs.*1]> h).
  assert (batch_at h1 batch pairs) as Hbatch1.
  { eapply batch_at_mono; [apply (keeps_alloc (OList pairs.*1) h)|done]. }
  rewrite (run_bind _ _ h1 (<[fresh (dom h1) := OList pairs.*2]> h1)
             (fresh (dom h1))).
  2:{ by run_head (run_targets_of _ _ _ Hbatch1). }
  reflexivity.
Qed.

Lemma run_stack_branch h batch pairs shape (datas : list (list Z)) :
  batch_at h batch pairs → pairs ≠ [] →
  Forall2 (λ p data, h !! p.1 = Some (OTensor shape data)) pairs datas →
  ∃ imgs targets r,
    new_refs h [imgs; targets; r] ∧
    stack_branch batch h =
      (<[r := OTuple [imgs; targets]]>
         (<[targets := OList pairs.*2]>
            (<[imgs := OTensor (length pairs :: shape) (concat datas)]> h)),
       Ok r).
Proof.
  intros Hbatch Hne Htensors.
  eexists _, _, _. split; [apply new_refs_chain|].
  unfold stack_branch.
  set (o := OTensor (length pairs :: shape) (concat datas)).
  rewrite (run_bind _ _ h (<[fresh (dom h) := o]> h) (fresh (dom h))).
  2:{ run_head (run_imgs_of _ _ _ Hbatch).
      rewrite (run_stack h pairs.*1 shape datas).
      - unfold o. by rewrite (Forall2_length _ _ _ Htensors).
      - intros ->. apply Forall2_nil_inv_r in Htensors. done.
      - by apply Forall2_fmap_l. }
  set (h1 := <[fresh (dom h) := o]> h).
  assert (batch_at h1 batch pairs) as Hbatch1.
  { eapply batch_at_mono; [apply (keeps_alloc o h)|done]. }
  rewrite (run_bind _ _ h1 (<[fresh (dom h1) := OList pairs.*2]> h1)
             (fresh (dom h1))).
  2:{ by run_head (run_targets_of _ _ _ Hbatch1). }
  reflexivity.
Qed.

End StoreBranches.

(** ** No mutation *)

(** C10: neither callback changes an object that exists when it is called:
    every object of the store before the call, so the batch list, each
    sample tuple, each input and each annotation mapping, is in the store
    after the call, unchanged, provided the default resolver, which the
    fall-back branch calls, changes none either.  On a batch of pairs whose
    first annotation is a dict the custom branch returns a new tuple of two
    new objects: the list of the references to the inputs (for
    [custom_collate], when the inputs are tensors of one shape, the new
    stacked tensor) and the list of the references to the annotations. *)
Theorem callbacks_keep_store (default_collate : Store.loc → Store.eval Store.loc)
    (Hdefault : ∀ batch, Store.keeps (default_collate batch))
    (batch : Store.loc) (h : gmap Store.loc Store.obj) :
  h ⊆ (Store.custom_collate default_collate batch h).1 ∧
  h ⊆ (Store.custom_detection_collate default_collate batch h).1 ∧
  (∀ x y d rest,
     let pairs := (x, y) :: rest in
     batch_at h batch pairs → h !! y = Some (Store.ODict d) →
     (∃ imgs targets r,
        new_refs h [imgs; targets; r] ∧
        Store.custom_detection_collate default_collate batch h =
          (<[r := Store.OTuple [imgs; targets]]>
             (<[targets := Store.OList pairs.*2]>
                (<[imgs := Store.OList pairs.*1]> h)), Ok r)) ∧
     (∀ shape (datas : list (list Z)),
        Forall2 (λ p data, h !! p.1 = Some (Store.OTensor shape data)) pairs datas →
        ∃ imgs targets r,
          new_refs h [imgs; targets; r] ∧
          Store.custom_collate default_collate batch h =
            (<[r := Store.OTuple [imgs; targets]]>
               (<[targets := Store.OList pairs.*2]>
                  (<[imgs := Store.OTensor (length pairs :: shape) (concat datas)]> h)),
             Ok r))).
Proof.
  split; [by apply keeps_custom_collate|].
  split; [by apply keeps_custom_detection_collate|].
  intros x y d rest pairs Hbatch Hy. split.
  - destruct (run_list_branch h batch pairs Hbatch)
      as (imgs & targets & r & Hnew & Hrun).
    exists imgs, targets, r. split; [exact Hnew|].
    unfold Store.custom_detection_collate.
    by run_head (run_dispatch _ _ _ _ _ _ Hbatch Hy).
  - intros shape datas Htensors.
    destruct (run_stack_branch h batch pairs shape datas Hbatch) as
      (imgs & targets & r & Hnew & Hrun); [done|done|].
    exists imgs, targets, r. split; [exact Hnew|].
    unfold Store.custom_collate.
    by run_head (run_dispatch _ _ _ _ _ _ Hbatch Hy).
Qed.

Lemma callbacks_keep_store_witness :
  detection_store ⊆
    (Store.custom_collate stack_batch 9%positive detection_store).1 ∧
  detection_store ⊆
    (Store.custom_detection_collate stack_batch 9%positive detection_store).1 ∧
  ∃ imgs targets r,
    new_refs detection_store [imgs; targets; r] ∧
    Store.custom_detection_collate stack_batch 9%positive detection_store =
      (<[r := Store.OTuple [imgs; targets]]>
         (<[targets := Store.OList [2%positive; 6%positive]]>
            (<[imgs := Store.OList [1%positive; 5%positive]]> detection_store)),
       Ok r).
Proof.
  destruct (callbacks_keep_store stack_batch keeps_stack_batch 9%positive
              detection_store) as (Hstack & Hlist & Hbranch).
  split; [exact Hstack|]. split; [exact Hlist|].
  refine (proj1 (Hbranch 1%positive 2%positive [(KStr "labels", 3%positive)]
                   [(5%positive, 6%positive)] _ _)).
  - exists [4%positive; 8%positive]. split; [reflexivity|].
    repeat constructor.
  - reflexivity.
Defined.

(** On that store both readings of the code agree: the values behind the
    references returned over the store are the values returned on the value
    of the batch. *)
Example store_matches_values :
  let batch := Store.reify 4 detection_store 9%positive in
  let run_list :=
    Store.custom_detection_collate stack_batch 9%positive detection_store in
  let run_stack := Store.custom_collate stack_batch 9%positive detection_store in
  (r ← run_list.2; Ok (Store.reify 4 run_list.1 r)) =
    (b ← from_option Ok (Raise KeyError) batch;
     v ← custom_detection_collate Torch.default_collate b; Ok (Some v)) ∧
  (r ← run_stack.2; Ok (Store.reify 4 run_stack.1 r)) =
    (b ← from_option Ok (Raise KeyError) batch;
     v ← custom_collate Torch.default_collate b; Ok (Some v)).
Proof. vm_compute. split; reflexivity. Qed.

(** ** The two readings agree on the custom branch *)

Section StoreValues.

Implicit Types (h : gmap Store.loc Store.obj) (l : Store.loc) (d : nat).

Lemma reify_mono d h h' l v :
  h ⊆ h' → Store.reify d h l = Some v → Store.reify d h' l = Some v.
Proof.
  intros Hsub. revert l v. induction d as [|d IH]; intros l v; [done|].
  cbn [Store.reify]. destruct (h !! l) as [o|] eqn:Hl; [|done].
  rewrite (lookup_weaken _ _ _ _ Hl Hsub).
  destruct o as [| | |items|items|items]; try done.
  - intros (vs & Hvs & ->)%fmap_Some. apply fmap_Some. exists vs. split; [|done].
    apply mapM_Some. apply mapM_Some in Hvs.
    eapply Forall2_impl; [exact Hvs|]. intros x w. apply IH.
  - intros (vs & Hvs & ->)%fmap_Some. apply fmap_Some. exists vs. split; [|done].
    apply mapM_Some. apply mapM_Some in Hvs.
    eapply Forall2_impl; [exact Hvs|]. intros x w. apply IH.
  - intros (vs & Hvs & ->)%fmap_Some. apply fmap_Some. exists vs. split; [|done].
    apply mapM_Some. apply mapM_Some in Hvs.
    eapply Forall2_impl; [exact Hvs|]. intros [k x] w. cbn.
    intros (w' & Hw' & ->)%fmap_Some. apply fmap_Some. exists w'.
    split; [by apply IH|done].
Qed.

Lemma reify_all_mono d h h' (ls : list Store.loc) vs :
  h ⊆ h' → Forall2 (λ l v, Store.reify d h l = Some v) ls vs →
  mapM (Store.reify d h') ls = Some vs.
Proof.
  intros Hsub Hvs. apply mapM_Some. eapply Forall2_impl; [exact Hvs|].
  intros l v. by apply reify_mono.
Qed.

(** The values of the samples of a batch of pairs. *)
Lemma reify_samples d h samples (pairs : list (Store.loc * Store.loc)) values :
  Forall2 (λ s p, h !! s = Some (Store.OTuple [p.1; p.2])) samples pairs →
  mapM (Store.reify (S d) h) samples = Some values →
  ∃ vpairs : list (pyval * pyval),
    values = pair_sample <$> vpairs ∧
    Forall2 (λ l v, Store.reify d h l = Some v) pairs.*1 vpairs.*1 ∧
    Forall2 (λ l v, Store.reify d h l = Some v) pairs.*2 vpairs.*2.
Proof.
  intros Hsamples. revert values.
  induction Hsamples as [|s [a b] samples pairs Hs _ IH]; intros values Hvalues.
  - injection Hvalues as <-. by exists [].
  - apply mapM_Some in Hvalues.
    apply Forall2_cons_inv_l in Hvalues as (sv & values' & Hsv & Hrest & ->).
    apply mapM_Some in Hrest. destruct (IH _ Hrest) as (vpairs & -> & Hfst & Hsnd).
    cbn [Store.reify] in Hsv. cbn in Hs. rewrite Hs in Hsv. cbn in Hsv.
    destruct (Store.reify d h a) as [va|] eqn:Ha; [|done].
    destruct (Store.reify d h b) as [vb|] eqn:Hb; [|done].
    injection Hsv as <-. exists ((va, vb) :: vpairs).
    split; [done|]. split; by constructor.
Qed.

Lemma lookup_new_refs h imgs targets r o1 o2 o3 :
  new_refs h [imgs; targets; r] →
  let h' := <[r := o3]> (<[targets := o2]> (<[imgs := o1]> h)) in
  h ⊆ h' ∧ h' !! imgs = Some o1 ∧ h' !! targets = Some o2 ∧ h' !! r = Some o3.
Proof.
  intros [Hnd Hnew] h'.
  apply NoDup_cons in Hnd as [Hi Hnd]. apply NoDup_cons in Hnd as [Ht _].
  apply Forall_cons in Hnew as [Hni Hnew]. apply Forall_cons in Hnew as [Hnt Hnew].
  apply Forall_cons in Hnew as [Hnr _].
  assert (imgs ≠ targets ∧ imgs ≠ r ∧ targets ≠ r) as (? & ? & ?).
  { repeat split; intros ->; [apply Hi|apply Hi|apply Ht]; set_solver. }
  unfold h'. repeat split.
  - trans (<[imgs := o1]> h); [by apply insert_subseteq|].
    trans (<[targets := o2]> (<[imgs := o1]> h)).
    + apply insert_subseteq. by rewrite lookup_insert_ne.
    + apply insert_subseteq. by do 2 rewrite lookup_insert_ne by done.
  - do 2 rewrite lookup_insert_ne by done. apply lookup_insert_eq.
  - rewrite lookup_insert_ne by done. apply lookup_insert_eq.
  - apply lookup_insert_eq.
Qed.

(** The value of a batch of pairs whose first annotation is a dict. *)
Lemma reify_batch d h batch x y items rest vbatch :
  batch_at h batch ((x, y) :: rest) →
  h !! y = Some (Store.ODict items) →
  Store.reify (S (S d)) h batch = Some vbatch →
  ∃ vx vitems vrest,
    let vpairs := (vx, VDict vitems) :: vrest in
    vbatch = batch_of vpairs ∧
    Forall2 (λ l v, Store.reify d h l = Some v) ((x, y) :: rest).*1 vpairs.*1 ∧
    Forall2 (λ l v, Store.reify d h l = Some v) ((x, y) :: rest).*2 vpairs.*2.
Proof.
  intros (samples & Hl & Hsamples) Hy Hvbatch.
  cbn [Store.reify] in Hvbatch. rewrite Hl in Hvbatch.
  apply fmap_Some in Hvbatch as (values & Hvalues & ->).
  destruct (reify_samples d h samples _ values Hsamples Hvalues)
    as (vpairs & -> & Hfst & Hsnd).
  destruct vpairs as [|[vx vy] vrest]; [by apply Forall2_cons_nil_inv in Hfst|].
  assert (∃ vitems, vy = VDict vitems) as [vitems ->].
  { apply Forall2_cons_1 in Hsnd as [Hvy _]. cbn in Hvy.
    destruct d as [|d]; [done|]. cbn [Store.reify] in Hvy. rewrite Hy in Hvy.
    apply fmap_Some in Hvy as (vitems & _ & ->). by exists vitems. }
  by exists vx, vitems, vrest.
Qed.

(** On a batch of pairs whose first annotation is a dict, the reference
    [custom_detection_collate] returns over the store stands for the value
    it returns on the value of the batch. *)
Theorem detection_store_agrees
    (store_default : Store.loc → Store.eval Store.loc)
    (default_collate : pyval → result pyval)
    d h batch x y items rest vbatch :
  batch_at h batch ((x, y) :: rest) →
  h !! y = Some (Store.ODict items) →
  Store.reify (S (S d)) h batch = Some vbatch →
  ∃ h' r v,
    Store.custom_detection_collate store_default batch h = (h', Ok r) ∧
    custom_detection_collate default_collate vbatch = Ok v ∧
    Store.reify (S (S d)) h' r = Some v.
Proof.
  intros Hbatch Hy Hvbatch.
  destruct (reify_batch d h batch x y items rest vbatch Hbatch Hy Hvbatch)
    as (vx & vitems & vrest & -> & Hfst & Hsnd).
  destruct (run_list_branch h batch _ Hbatch)
    as (imgs & targets & r & Hnew & Hrun).
  destruct (lookup_new_refs h imgs targets r (Store.OList ((x, y) :: rest).*1)
              (Store.OList ((x, y) :: rest).*2) (Store.OTuple [imgs; targets])
              Hnew) as (Hsub & Hi & Ht & Hr).
  eexists _, r, _. split; [|split].
  - unfold Store.custom_detection_collate.
    run_head (run_dispatch _ _ _ _ _ _ Hbatch Hy). exact Hrun.
  - apply (custom_detection_collate_pairs default_collate vx vitems vrest).
  - cbn [Store.reify]. rewrite Hr. cbn [mapM Store.reify]. rewrite Hi, Ht.
    rewrite (reify_all_mono _ _ _ _ _ Hsub Hfst).
    by rewrite (reify_all_mono _ _ _ _ _ Hsub Hsnd).
Qed.

Lemma reify_tensors d h (ls : list Store.loc) (vs : list pyval) shape
    (datas : list (list Z)) :
  Forall2 (λ l data, h !! l = Some (Store.OTensor shape data)) ls datas →
  Forall2 (λ l v, Store.reify d h l = Some v) ls vs →
  vs = VTensor shape <$> datas.
Proof.
  intros Htensors. revert vs.
  induction Htensors as [|l data ls datas Hl _ IH]; intros vs Hvs.
  - by apply Forall2_nil_inv_l in Hvs as ->.
  - apply Forall2_cons_inv_l in Hvs as (v & vs' & Hv & Hvs' & ->).
    rewrite (IH _ Hvs'). destruct d as [|d]; [done|].
    cbn [Store.reify] in Hv. rewrite Hl in Hv. by injection Hv as <-.
Qed.

(** The same for [custom_collate], on inputs that are tensors of one
    shape. *)
Theorem stack_store_agrees
    (store_default : Store.loc → Store.eval Store.loc)
    (default_collate : pyval → result pyval)
    d h batch x y items rest shape (datas : list (list Z)) vbatch :
  batch_at h batch ((x, y) :: rest) →
  h !! y = Some (Store.ODict items) →
  Forall2 (λ p data, h !! p.1 = Some (Store.OTensor shape data))
          ((x, y) :: rest) datas →
  Store.reify (S (S d)) h batch = Some vbatch →
  ∃ h' r v,
    Store.custom_collate store_default batch h = (h', Ok r) ∧
    custom_collate default_collate vbatch = Ok v ∧
    Store.reify (S (S d)) h' r = Some v.
Proof.
  intros Hbatch Hy Htensors Hvbatch.
  destruct (reify_batch d h batch x y items rest vbatch Hbatch Hy Hvbatch)
    as (vx & vitems & vrest & -> & Hfst & Hsnd).
  assert (((vx, VDict vitems) :: vrest).*1 = VTensor shape <$> datas) as Himgs.
  { eapply reify_tensors; [|exact Hfst]. by apply Forall2_fmap_l. }
  destruct (run_stack_branch h batch _ shape datas Hbatch)
    as (imgs & targets & r & Hnew & Hrun); [done|done|].
  destruct (lookup_new_refs h imgs targets r
              (Store.OTensor (length ((x, y) :: rest) :: shape) (concat datas))
              (Store.OList ((x, y) :: rest).*2) (Store.OTuple [imgs; targets])
              Hnew) as (Hsub & Hi & Ht & Hr).
  eexists _, r, _. split; [|split].
  - unfold Store.custom_collate.
    run_head (run_dispatch _ _ _ _ _ _ Hbatch Hy). exact Hrun.
  - exact (custom_collate_pairs default_collate vx vitems vrest shape datas Himgs).
  - cbn [Store.reify]. rewrite Hr. cbn [mapM Store.reify]. rewrite Hi, Ht.
    rewrite (reify_all_mono _ _ _ _ _ Hsub Hsnd). cbn.
    apply Forall2_length in Hfst. rewrite !length_fmap in Hfst. cbn in Hfst.
    by injection Hfst as ->.
Qed.

End StoreValues.

(** ** Outcome of the custom branch *)

Lemma mapM_then {A B C} (f : A → result B) (g : B → C) (l : list A) :
  mapM (λ a, b ← f a; Ok (g b)) l = (bs ← mapM f l; Ok (g <$> bs)).
Proof.
  induction l as [|a l IH]; [reflexivity|].
  cbn [mapM]. cbn [mapM] in IH. destruct (f a) as [b|e]; [|reflexivity].
  rewrite !bind_Ok, IH. by destruct (mapM f l).
Qed.

Lemma mapM_ext_result {A B} (f g : A → result B) (l : list A) :
  (∀ a, f a = g a) → mapM f l = mapM g l.
Proof.
  intros Hfg. induction l as [|a l IH]; [reflexivity|].
  cbn [mapM]. cbn [mapM] in IH. by rewrite Hfg, IH.
Qed.

Lemma imgs_of_unpack samples :
  imgs_of (VList samples) = (pairs ← mapM Py.unpack2 samples; Ok pairs.*1).
Proof.
  unfold imgs_of. cbn [Py.iter]. rewrite bind_Ok, <- mapM_then.
  apply mapM_ext_result. intros sample. by destruct (Py.unpack2 sample) as [[??]|].
Qed.

Lemma targets_of_unpack samples :
  targets_of (VList samples) = (pairs ← mapM Py.unpack2 samples; Ok pairs.*2).
Proof.
  unfold targets_of. cbn [Py.iter]. rewrite bind_Ok, <- mapM_then.
  apply mapM_ext_result. intros sample. by destruct (Py.unpack2 sample) as [[??]|].
Qed.

Lemma unpack2_errors sample e :
  Py.unpack2 sample = Raise e → e = TypeError ∨ e = ValueError.
Proof.
  unfold Py.unpack2. destruct (Py.iter sample) as [items|e'] eqn:Hiter; cbn.
  - destruct items as [|a [|b [|c items]]]; intros [= <-]; by right.
  - intros [= <-]. left.
    destruct sample as [| |[|n shape] data| | |]; cbn in Hiter; congruence.
Qed.

Lemma mapM_errors {A B} (f : A → result B) (P : exn → Prop) (l : list A) e :
  (∀ a e, f a = Raise e → P e) → mapM f l = Raise e → P e.
Proof.
  intros Hf. induction l as [|a l IH]; [discriminate|].
  cbn [mapM]. cbn [mapM] in IH. destruct (f a) as [b|e'] eqn:Ha.
  - rewrite bind_Ok. destruct (mapM f l) as [bs|e'']; [discriminate|].
    intros [= <-]. by apply IH.
  - intros [= <-]. by eapply Hf.
Qed.

Lemma mapM_length {A B} (f : A → result B) (l : list A) bs :
  mapM f l = Ok bs → length bs = length l.
Proof.
  revert bs. induction l as [|a l IH]; intros bs; [by intros [= <-]|].
  cbn [mapM]. cbn [mapM] in IH. destruct (f a) as [b|]; [|discriminate].
  rewrite bind_Ok. destruct (mapM f l) as [bs'|]; [|discriminate].
  intros [= <-]. cbn. by rewrite (IH bs').
Qed.

Lemma stack_errors tensors e :
  Torch.stack tensors = Raise e → e = TypeError ∨ e = RuntimeError.
Proof.
  unfold Torch.stack. destruct (mapM Torch.as_tensor tensors) as [ts|e'] eqn:Hts.
  - rewrite bind_Ok. destruct ts as [|[shape data] ts]; [intros [= <-]; by right|].
    destruct (forallb _ _); [discriminate|]. intros [= <-]. by right.
  - intros [= <-]. left. revert Hts.
    apply (mapM_errors _ (λ e, e = TypeError)).
    intros v e. destruct v; cbn; congruence.
Qed.

Lemma custom_branch_unpack (default_collate : pyval → result pyval) samples :
  dispatch (VList samples) = Ok true →
  custom_detection_collate default_collate (VList samples) =
    (pairs ← mapM Py.unpack2 samples;
     Ok (VTuple [VList pairs.*1; VList pairs.*2])) ∧
  custom_collate default_collate (VList samples) =
    (pairs ← mapM Py.unpack2 samples;
     imgs ← Torch.stack pairs.*1;
     Ok (VTuple [imgs; VList pairs.*2])).
Proof.
  intros Htest. unfold custom_detection_collate, custom_collate.
  rewrite Htest, !bind_Ok. unfold list_branch, stack_branch.
  rewrite imgs_of_unpack, targets_of_unpack.
  destruct (mapM Py.unpack2 samples) as [pairs|]; [|done].
  rewrite !bind_Ok. by destruct (Torch.stack pairs.*1).
Qed.

(** When the test of the [if] holds the batch is a non-empty list and the
    outcome of both callbacks is decided by unpacking its samples:
    [custom_detection_collate] returns two lists as long as the batch when
    every sample unpacks into two values, and raises the error of the first
    sample that does not, a TypeError or a ValueError;  [custom_collate]
    does the same and then stacks, so it can also raise RuntimeError.  The
    resolver plays no part and no other exception is raised. *)
Theorem custom_branch_outcome (default_collate : pyval → result pyval)
    (batch : pyval) (Htest : dispatch batch = Ok true) :
  ∃ samples,
    batch = VList samples ∧ samples ≠ [] ∧
    custom_detection_collate default_collate batch =
      (pairs ← mapM Py.unpack2 samples;
       Ok (VTuple [VList pairs.*1; VList pairs.*2])) ∧
    custom_collate default_collate batch =
      (pairs ← mapM Py.unpack2 samples;
       imgs ← Torch.stack pairs.*1;
       Ok (VTuple [imgs; VList pairs.*2])) ∧
    (∀ r, custom_detection_collate default_collate batch = Ok r →
       ∃ imgs targets, r = VTuple [VList imgs; VList targets] ∧
         length imgs = length samples ∧ length targets = length samples) ∧
    (∀ e, custom_detection_collate default_collate batch = Raise e →
       e = TypeError ∨ e = ValueError) ∧
    (∀ e, custom_collate default_collate batch = Raise e →
       e = TypeError ∨ e = ValueError ∨ e = RuntimeError).
Proof.
  pose proof Htest as (first & rest & second & -> & _)%dispatch_true.
  exists (first :: rest). split; [done|]. split; [done|].
  destruct (custom_branch_unpack default_collate _ Htest) as [Hlist Hstack].
  split; [exact Hlist|]. split; [exact Hstack|]. split; [|split].
  - intros r. rewrite Hlist.
    destruct (mapM Py.unpack2 (first :: rest)) as [pairs|] eqn:Hpairs;
      [|discriminate].
    rewrite bind_Ok. intros [= <-]. exists pairs.*1, pairs.*2.
    apply mapM_length in Hpairs. by rewrite !length_fmap.
  - intros e. rewrite Hlist.
    destruct (mapM Py.unpack2 (first :: rest)) as [pairs|e'] eqn:Hpairs;
      [discriminate|].
    intros [= <-]. revert Hpairs.
    apply (mapM_errors _ (λ e, e = TypeError ∨ e = ValueError)).
    apply unpack2_errors.
  - intros e. rewrite Hstack.
    destruct (mapM Py.unpack2 (first :: rest)) as [pairs|e'] eqn:Hpairs.
    + rewrite bind_Ok. destruct (Torch.stack pairs.*1) as [imgs|e'] eqn:Hs;
        [discriminate|].
      intros [= <-]. apply stack_errors in Hs. tauto.
    + intros [= <-].
      enough (e' = TypeError ∨ e' = ValueError) by tauto.
      revert Hpairs.
      apply (mapM_errors _ (λ e, e = TypeError ∨ e = ValueError)).
      apply unpack2_errors.
Qed.

Lemma custom_branch_outcome_witness :
  let img := VTensor [1] [0%Z] in
  let batch := VList [VTuple [img; VDict []]; VInt 7] in
  custom_detection_collate Torch.default_collate batch = Raise TypeError ∧
  custom_collate Torch.default_collate batch = Raise TypeError.
Proof.
  intros img batch.
  destruct (custom_branch_outcome Torch.default_collate batch eq_refl)
    as (samples & Hbatch & _ & Hlist & Hstack & _).
  injection Hbatch as <-. split; [exact Hlist|exact Hstack].
Defined.

(** ** When the test itself raises *)

(** The shapes of batch on which the test of the [if] raises [e]. *)
Lemma test_raises_cases batch e :
  dispatch batch = Raise e ↔
  (batch = VList [] ∧ e = IndexError) ∨
  (∃ first rest, batch = VList (first :: rest) ∧
     ((e = TypeError ∧
       ((∃ z, first = VInt z) ∨ (∃ data, first = VTensor [] data))) ∨
      (e = KeyError ∧
       ∃ kv1 kv2, first = VDict [kv1; kv2] ∧
                  kv1.1 ≠ KInt 1 ∧ kv2.1 ≠ KInt 1))).
Proof.
  split.
  - intros Hraise. unfold dispatch in Hraise.
    destruct batch as [| | | |samples|]; try discriminate.
    destruct samples as [|first rest]; [left; by injection Hraise as <-|].
    right. exists first, rest. split; [done|]. cbn in Hraise.
    destruct first as [z|s|[|n shape] data|items|items|items]; cbn in Hraise.
    + left. injection Hraise as <-. split; [done|]. left. by exists z.
    + destruct (decide (length (Py.chars s) = 2)) as [Hlen|]; [|discriminate].
      destruct s as [|a [|b s]]; discriminate.
    + left. injection Hraise as <-. split; [done|]. right. by exists data.
    + destruct (decide (n = 2)) as [->|]; discriminate.
    + destruct (decide (length items = 2)); [|discriminate].
      destruct items as [|a [|b [|c items]]]; discriminate.
    + destruct (decide (length items = 2)); [|discriminate].
      destruct items as [|a [|b [|c items]]]; discriminate.
    + destruct (decide (length items = 2)); [|discriminate].
      destruct items as [|[k1 v1] [|[k2 v2] [|c items]]]; try discriminate.
      cbn in Hraise. change (Z.of_nat 1) with 1%Z in Hraise.
      destruct (decide (k1 = KInt 1)); [discriminate|].
      destruct (decide (k2 = KInt 1)); [discriminate|].
      right. injection Hraise as <-. split; [done|].
      by exists (k1, v1), (k2, v2).
  - intros [[-> ->]|(first & rest & -> & [[-> Hfirst]|[-> Hfirst]])].
    + reflexivity.
    + by destruct Hfirst as [[z ->]|[data ->]].
    + destruct Hfirst as ([k1 v1] & [k2 v2] & -> & Hk1 & Hk2). cbn in Hk1, Hk2.
      unfold dispatch. cbn. change (Z.of_nat 1) with 1%Z.
      rewrite decide_True by done. by rewrite !decide_False.
Qed.

(** The reads of the test that can fail. *)
Lemma test_raises_reads batch e :
  dispatch batch = Raise e ↔
  Py.isinstance_list batch = true ∧
  (Py.getitem batch 0 = Raise e ∨
   ∃ first, Py.getitem batch 0 = Ok first ∧
     (Py.len first = Raise e ∨
      (Py.len first = Ok 2 ∧ Py.getitem first 1 = Raise e))).
Proof.
  unfold dispatch. destruct (Py.isinstance_list batch).
  2:{ split; [discriminate|]. by intros [? _]. }
  destruct (Py.getitem batch 0) as [first|e0].
  2:{ change (Raise e0 ≫= _) with (Raise (A:=bool) e0). split.
      - intros [= <-]. split; [done|]. by left.
      - intros [_ [Hraise|(first & ? & _)]]; congruence. }
  rewrite bind_Ok. destruct (Py.len first) as [n|e1] eqn:Hlen.
  2:{ change (Raise e1 ≫= _) with (Raise (A:=bool) e1). split.
      - intros [= <-]. split; [done|]. right. exists first. split; [done|]. by left.
      - intros [_ [?|(first' & [= <-] & [Hraise|[? _]])]]; congruence. }
  rewrite bind_Ok. destruct (decide (n = 2)) as [->|Hn].
  - rewrite bind_Ok. destruct (Py.getitem first 1) as [second|e2] eqn:Hsecond.
    + rewrite bind_Ok. split; [discriminate|].
      intros [_ [?|(first' & [= <-] & [?|[_ ?]])]]; congruence.
    + change (Raise e2 ≫= _) with (Raise (A:=bool) e2). split.
      * intros [= <-]. split; [done|]. right. exists first. split; [done|].
        by right.
      * intros [_ [?|(first' & [= <-] & [?|[_ Hraise]])]]; congruence.
  - split; [discriminate|].
    intros [_ [?|(first' & [= <-] & [?|[? _]])]]; congruence.
Qed.

(** The test of the [if] raises only through one of its three reads, in the
    order in which they are evaluated: [batch[0]], [len(batch[0])], and
    [batch[0][1]] once that length is 2.  It does not raise when the batch
    is not a list or when the first sample has a length other than 2.  Both
    callbacks then raise the exception of the test, whatever the resolver
    is.  On the values of this development (integers, strings, tensors,
    tuples, lists and dicts with integer or string keys) the reads fail in
    three cases: IndexError on the empty list, TypeError when the first
    sample is an integer or a 0-d tensor, which have no length, and KeyError
    when the first sample is a dict with two entries and no key [1]. *)
Theorem test_raises (default_collate : pyval → result pyval)
    (batch : pyval) (e : exn) :
  (dispatch batch = Raise e ↔
   Py.isinstance_list batch = true ∧
   (Py.getitem batch 0 = Raise e ∨
    ∃ first, Py.getitem batch 0 = Ok first ∧
      (Py.len first = Raise e ∨
       (Py.len first = Ok 2 ∧ Py.getitem first 1 = Raise e)))) ∧
  (dispatch batch = Raise e →
   ∀ resolver : pyval → result pyval,
     custom_collate resolver batch = Raise e ∧
     custom_detection_collate resolver batch = Raise e) ∧
  (dispatch batch = Raise e ↔
   (batch = VList [] ∧ e = IndexError) ∨
   (∃ first rest, batch = VList (first :: rest) ∧
      ((e = TypeError ∧
        ((∃ z, first = VInt z) ∨ (∃ data, first = VTensor [] data))) ∨
       (e = KeyError ∧
        ∃ kv1 kv2, first = VDict [kv1; kv2] ∧
                   kv1.1 ≠ KInt 1 ∧ kv2.1 ≠ KInt 1)))).
Proof.
  split; [apply test_raises_reads|]. split; [|apply test_raises_cases].
  intros Hraise resolver. unfold custom_collate, custom_detection_collate.
  by rewrite Hraise.
Qed.

Lemma test_raises_witness :
  let sample := VDict [(KStr "label", VInt 1); (KStr "other_value", VInt 2)] in
  custom_collate Torch.default_collate (VList [sample; sample]) = Raise KeyError ∧
  custom_detection_collate Torch.default_collate (VList [sample; sample]) =
    Raise KeyError.
Proof.
  intros sample.
  refine (proj1 (proj2 (test_raises Torch.default_collate (VList [sample; sample])
                          KeyError)) _ Torch.default_collate).
  apply (proj2 (proj1 (test_raises Torch.default_collate (VList [sample; sample])
                         KeyError))).
  split; [reflexivity|]. right. exists sample. split; [reflexivity|].
  right. split; reflexivity.
Defined.

(** ** Splitting and joining batches *)

Lemma mapM_app_result {A B} (f : A → result B) (l1 l2 : list A) bs1 bs2 :
  mapM f l1 = Ok bs1 → mapM f l2 = Ok bs2 → mapM f (l1 ++ l2) = Ok (bs1 ++ bs2).
Proof.
  revert bs1. induction l1 as [|a l1 IH]; intros bs1.
  - by intros [= <-].
  - cbn [mapM app]. cbn [mapM] in IH. destruct (f a) as [b|]; [|discriminate].
    rewrite !bind_Ok. destruct (mapM f l1) as [bs|]; [|discriminate].
    intros [= <-] H2. by rewrite (IH bs eq_refl H2).
Qed.

Lemma stack_inv tensors n shape data :
  Torch.stack tensors = Ok (VTensor (n :: shape) data) →
  ∃ datas, tensors = VTensor shape <$> datas ∧ datas ≠ [] ∧
           n = length datas ∧ data = concat datas.
Proof.
  unfold Torch.stack.
  destruct (mapM Torch.as_tensor tensors) as [ts|] eqn:Hts; [|discriminate].
  rewrite bind_Ok. destruct ts as [|[shape0 data0] ts]; [discriminate|].
  destruct (forallb _ _) eqn:Hall; [|discriminate].
  intros [= <- <- <-]. exists (snd <$> (shape0, data0) :: ts).
  split; [|split; [done|split; [by rewrite length_fmap|done]]].
  revert Hts Hall. generalize ((shape0, data0) :: ts). clear.
  intros ts. revert ts. induction tensors as [|v tensors IH]; intros ts.
  - by intros [= <-].
  - cbn [mapM]. cbn [mapM] in IH. destruct v as [| |sh d| | |]; try discriminate.
    cbn. destruct (mapM Torch.as_tensor tensors) as [ts'|]; [|discriminate].
    intros [= <-]. cbn. intros [Hsh Hall]%andb_prop.
    apply bool_decide_eq_true in Hsh. cbn in Hsh. subst sh.
    by rewrite (IH ts' eq_refl Hall).
Qed.

(** Collating two batches and joining the results gives the result of
    collating the joined batch: for [custom_detection_collate] the two lists
    are appended, for [custom_collate] the stacked tensors of one sample
    shape are joined along the batch dimension. *)
Theorem collate_joins (default_collate : pyval → result pyval)
    (samples1 samples2 : list pyval)
    (Htest1 : dispatch (VList samples1) = Ok true)
    (Htest2 : dispatch (VList samples2) = Ok true) :
  (∀ imgs1 targets1 imgs2 targets2,
     custom_detection_collate default_collate (VList samples1) =
       Ok (VTuple [VList imgs1; VList targets1]) →
     custom_detection_collate default_collate (VList samples2) =
       Ok (VTuple [VList imgs2; VList targets2]) →
     custom_detection_collate default_collate (VList (samples1 ++ samples2)) =
       Ok (VTuple [VList (imgs1 ++ imgs2); VList (targets1 ++ targets2)])) ∧
  (∀ n1 n2 shape data1 data2 targets1 targets2,
     custom_collate default_collate (VList samples1) =
       Ok (VTuple [VTensor (n1 :: shape) data1; VList targets1]) →
     custom_collate default_collate (VList samples2) =
       Ok (VTuple [VTensor (n2 :: shape) data2; VList targets2]) →
     custom_collate default_collate (VList (samples1 ++ samples2)) =
       Ok (VTuple [VTensor (n1 + n2 :: shape) (data1 ++ data2);
                   VList (targets1 ++ targets2)])).
Proof.
  assert (dispatch (VList (samples1 ++ samples2)) = Ok true) as Htest.
  { destruct samples1 as [|first rest]; [discriminate|]. exact Htest1. }
  destruct (custom_branch_unpack default_collate _ Htest1) as [Hlist1 Hstack1].
  destruct (custom_branch_unpack default_collate _ Htest2) as [Hlist2 Hstack2].
  destruct (custom_branch_unpack default_collate _ Htest) as [Hlist Hstack].
  rewrite Hlist1, Hlist2, Hlist, Hstack1, Hstack2, Hstack. clear.
  destruct (mapM Py.unpack2 samples1) as [pairs1|] eqn:H1;
    [|split; intros; discriminate].
  destruct (mapM Py.unpack2 samples2) as [pairs2|] eqn:H2;
    [|split; intros; discriminate].
  rewrite (mapM_app_result _ _ _ _ _ H1 H2), !bind_Ok, !fmap_app. split.
  - by intros imgs1 targets1 imgs2 targets2 [= <- <-] [= <- <-].
  - intros n1 n2 shape data1 data2 targets1 targets2.
    destruct (Torch.stack pairs1.*1) as [t1|] eqn:Hs1; [|discriminate].
    destruct (Torch.stack pairs2.*1) as [t2|] eqn:Hs2; [|discriminate].
    rewrite !bind_Ok. intros [= -> <-] [= -> <-].
    apply stack_inv in Hs1 as (datas1 & -> & Hne1 & -> & ->).
    apply stack_inv in Hs2 as (datas2 & -> & Hne2 & -> & ->).
    rewrite <- (fmap_app (VTensor shape) datas1 datas2).
    rewrite stack_uniform by (by destruct datas1).
    by rewrite bind_Ok, length_app, concat_app.
Qed.

Lemma collate_joins_witness :
  let sample1 := VTuple [VTensor [1] [5%Z]; VDict [(KStr "label", VInt 1)]] in
  let sample2 := VTuple [VTensor [1] [7%Z]; VDict [(KStr "label", VInt 2)]] in
  custom_collate Torch.default_collate (VList ([sample1] ++ [sample2; sample1])) =
  Ok (VTuple [VTensor [1 + 2; 1] ([5%Z] ++ [7; 5]%Z);
              VList ([VDict [(KStr "label", VInt 1)]] ++
                     [VDict [(KStr "label", VInt 2)];
                      VDict [(KStr "label", VInt 1)]])]).
Proof.
  intros sample1 sample2.
  apply (proj2 (collate_joins Torch.default_collate [sample1] [sample2; sample1]
                  eq_refl eq_refl)); reflexivity.
Defined.

(** ** Reading a collated batch *)

(** On a batch of pairs whose inputs are well-formed tensors of one shape
    and whose first annotation is a dict, what [custom_collate] returns can
    be taken apart again: both components have the length of the batch,
    index [i] gives back the input and the annotation of sample [i], and an
    index past the batch raises IndexError. *)
Theorem collated_items (default_collate : pyval → result pyval)
    (shape : list nat) (data : list Z) (d : list (key * pyval))
    (rest : list (list Z * pyval)) :
  let samples := (data, VDict d) :: rest in
  Forall (λ s, length s.1 = Py.numel shape) samples →
  ∃ imgs targets,
    custom_collate default_collate
      (batch_of (prod_map (VTensor shape) id <$> samples)) =
      Ok (VTuple [imgs; targets]) ∧
    Py.len imgs = Ok (length samples) ∧
    Py.len targets = Ok (length samples) ∧
    (∀ i data_i target_i,
       samples !! i = Some (data_i, target_i) →
       Py.getitem imgs i = Ok (VTensor shape data_i) ∧
       Py.getitem targets i = Ok target_i) ∧
    (∀ i, length samples ≤ i →
       Py.getitem imgs i = Raise IndexError ∧
       Py.getitem targets i = Raise IndexError).
Proof.
  intros samples Hwf.
  exists (VTensor (length samples :: shape) (concat samples.*1)),
         (VList samples.*2).
  assert (length samples.*1 = length samples) as Hlen1 by apply length_fmap.
  assert (length samples.*2 = length samples) as Hlen2 by apply length_fmap.
  split; [|split; [done|split; [by cbn; rewrite length_fmap|split]]].
  - assert ((prod_map (VTensor shape) id <$> samples).*1 =
            VTensor shape <$> samples.*1) as Hfst.
    { rewrite <- !list_fmap_compose. by apply list_fmap_ext; intros ? [??]. }
    assert ((prod_map (VTensor shape) id <$> samples).*2 = samples.*2) as Hsnd.
    { rewrite <- !list_fmap_compose. by apply list_fmap_ext; intros ? [??]. }
    etrans; [exact (custom_collate_pairs default_collate (VTensor shape data) d
                      (fmap (M:=list) (prod_map (VTensor shape) id) rest)
                      shape samples.*1 Hfst)|].
    cbn [length]. rewrite length_fmap. do 5 f_equal. exact Hsnd.
  - intros i data_i target_i Hi. split.
    + rewrite <- Hlen1. apply getitem_stacked.
      * apply Forall_fmap. eapply Forall_impl; [exact Hwf|]. by intros [??].
      * by rewrite list_lookup_fmap, Hi.
    + cbn [Py.getitem]. unfold Py.index. by rewrite list_lookup_fmap, Hi.
  - intros i Hi. split.
    + cbn [Py.getitem]. by rewrite decide_False by lia.
    + cbn [Py.getitem]. unfold Py.index.
      by rewrite lookup_ge_None_2 by (rewrite length_fmap; lia).
Qed.

Lemma collated_items_witness :
  let target1 := VDict [(KStr "label", VInt 4)] in
  let target2 := VDict [(KStr "label", VInt 2)] in
  ∃ imgs targets,
    custom_collate Torch.default_collate
      (VList [VTuple [VTensor [2] [1; 2]%Z; target1];
              VTuple [VTensor [2] [3; 4]%Z; target2]]) =
      Ok (VTuple [imgs; targets]) ∧
    Py.getitem imgs 1 = Ok (VTensor [2] [3; 4]%Z) ∧
    Py.getitem targets 1 = Ok target2.
Proof.
  intros target1 target2.
  destruct (collated_items Torch.default_collate [2] [1; 2]%Z
              [(KStr "label", VInt 4)] [([3; 4]%Z, target2)])
    as (imgs & targets & Hrun & _ & _ & Hitems & _).
  { repeat constructor. }
  exists imgs, targets. split; [exact Hrun|].
  exact (Hitems 1 [3; 4]%Z target2 eq_refl).
Defined.

(** ** The failure the custom callbacks avoid *)

Lemma stack_mixed (t0 : list nat * list Z) (ts : list (list nat * list Z)) :
  Exists (λ t, t.1 ≠ t0.1) ts →
  Torch.stack ((λ t, VTensor t.1 t.2) <$> t0 :: ts) = Raise RuntimeError.
Proof.
  intros Hmixed. unfold Torch.stack.
  rewrite mapM_fmap, (mapM_Ok _ id) by by intros [??].
  rewrite list_fmap_id, bind_Ok. destruct t0 as [shape0 data0].
  replace (forallb _ _) with false; [done|]. symmetry.
  apply not_true_is_false. intros Hall.
  rewrite forallb_forall in Hall. apply Exists_exists in Hmixed as (t & Ht & Hne).
  specialize (Hall t). rewrite bool_decide_eq_true in Hall.
  apply Hne, Hall, list_elem_of_In. by right.
Qed.

(** With the default resolver, a batch whose samples hold arrays of different
    shapes under the first key of their mappings cannot be collated: the
    resolver raises RuntimeError.  [custom_detection_collate] returns the
    inputs and the mappings of the same batch as two lists. *)
Theorem default_rejects_varying_shapes (ishape : list nat) (k : key)
    (row : list Z * (list nat * list Z) * list (key * pyval))
    (rows : list (list Z * (list nat * list Z) * list (key * pyval)))
    (Hvary : Exists (λ r, r.1.2.1 ≠ row.1.2.1) rows) :
  let samples := keyed_sample ishape k <$> row :: rows in
  Torch.default_collate (VList samples) = Raise RuntimeError ∧
  custom_detection_collate Torch.default_collate (VList samples) =
    Ok (VTuple [VList ((λ r, VTensor ishape r.1.1) <$> row :: rows);
                VList ((λ r, VDict ((k, VTensor r.1.2.1 r.1.2.2) :: r.2))
                         <$> row :: rows)]).
Proof.
  intros samples. split.
  - change (Torch.default_collate (VList samples))
      with (Torch.collate (keyed_sample ishape k row) samples).
    unfold keyed_sample at 1. cbn [Torch.collate length].
    rewrite same_size_Ok.
    2:{ intros s (r & -> & _)%list_elem_of_fmap. done. }
    rewrite bind_Ok. cbn [Torch.collate_seq].
    assert (mapM (λ s, Py.getitem s 0) samples =
            Ok (VTensor ishape <$> (row :: rows).*1.*1)) as ->.
    { unfold samples. rewrite mapM_fmap, <- !list_fmap_compose.
      by apply mapM_Ok. }
    assert (mapM (λ s, Py.getitem s 1) samples =
            Ok ((λ r, VDict ((k, VTensor r.1.2.1 r.1.2.2) :: r.2))
                  <$> row :: rows)) as ->.
    { unfold samples. rewrite mapM_fmap. by apply mapM_Ok. }
    rewrite !bind_Ok. cbn [Torch.collate].
    rewrite stack_uniform by done. rewrite bind_Ok.
    cbn [Torch.collate_dict].
    rewrite mapM_fmap, (mapM_Ok _ (λ r, VTensor r.1.2.1 r.1.2.2)).
    2:{ intros r _. cbn. by rewrite decide_True. }
    rewrite bind_Ok. cbn [Torch.collate].
    change (λ r : list Z * (list nat * list Z) * list (key * pyval),
              VTensor r.1.2.1 r.1.2.2)
      with ((λ t : list nat * list Z, VTensor t.1 t.2) ∘
            (λ r : list Z * (list nat * list Z) * list (key * pyval), r.1.2)).
    rewrite (list_fmap_compose _ (λ t : list nat * list Z, VTensor t.1 t.2)).
    pose proof (stack_mixed row.1.2 ((λ r, r.1.2) <$> rows)) as Hstack.
    cbn [fmap list_fmap] in Hstack |- *. rewrite Hstack; [done|].
    apply Exists_fmap. exact Hvary.
  - set (pair := λ r : list Z * (list nat * list Z) * list (key * pyval),
                  (VTensor ishape r.1.1,
                   VDict ((k, VTensor r.1.2.1 r.1.2.2) :: r.2))).
    assert (VList samples = batch_of (pair <$> row :: rows)) as ->.
    { unfold batch_of, samples. by rewrite <- list_fmap_compose. }
    etrans; [exact (custom_detection_collate_pairs Torch.default_collate
                      (VTensor ishape row.1.1)
                      ((k, VTensor row.1.2.1 row.1.2.2) :: row.2)
                      (fmap (M:=list) pair rows))|].
    cbn [fmap list_fmap fst snd]. do 5 f_equal.
    + by rewrite <- list_fmap_compose.
    + do 2 f_equal. by rewrite <- list_fmap_compose.
Qed.

Lemma default_rejects_varying_shapes_witness :
  let img := VTensor [1] [0%Z] in
  let batch :=
    VList [VTuple [img; VDict [(KStr "boxes", VTensor [1; 4] [1; 2; 3; 4]%Z);
                               (KStr "labels", VTensor [1] [12%Z])]];
           VTuple [img; VDict [(KStr "boxes",
                                VTensor [2; 4] [1; 2; 3; 4; 5; 6; 7; 8]%Z);
                               (KStr "labels", VTensor [2] [81; 7]%Z)]]] in
  Torch.default_collate batch = Raise RuntimeError.
Proof.
  intros img batch.
  refine (proj1 (default_rejects_varying_shapes [1] (KStr "boxes")
    ([0%Z], ([1; 4], [1; 2; 3; 4]%Z), [(KStr "labels", VTensor [1] [12%Z])])
    [([0%Z], ([2; 4], [1; 2; 3; 4; 5; 6; 7; 8]%Z),
      [(KStr "labels", VTensor [2] [81; 7]%Z)])] _)).
  apply Exists_cons_hd. cbn. discriminate.
Defined.

(** ** Random data *)

Lemma returns_ret {A} (a : A) (P : A → Prop) : P a → returns (mret a) P.
Proof. intros Ha pos. by exists pos, a. Qed.

Lemma returns_bind {A B} (m : Rng.gen A) (f : A → Rng.gen B) P Q :
  returns m P → (∀ a, P a → returns (f a) Q) → returns (m ≫= f) Q.
Proof.
  intros Hm Hf pos. destruct (Hm pos) as (pos1 & a & Hrun & Ha).
  destruct (Hf a Ha pos1) as (pos2 & b & Hrun' & Hb).
  exists pos2, b. split; [|done].
  unfold mbind, Rng.gen_bind. by rewrite Hrun.
Qed.

Lemma returns_weaken {A} (m : Rng.gen A) (P Q : A → Prop) :
  returns m P → (∀ a, P a → Q a) → returns m Q.
Proof.
  intros Hm HPQ pos. destruct (Hm pos) as (pos' & a & Hrun & Ha).
  exists pos', a. auto.
Qed.

Lemma returns_repeat {A} (n : nat) (m : Rng.gen A) P :
  returns m P → returns (Rng.repeat n m) (λ l, length l = n ∧ Forall P l).
Proof.
  intros Hm. induction n as [|n IH]; [by apply returns_ret|].
  cbn [Rng.repeat]. eapply returns_bind; [exact Hm|]. intros a Ha.
  eapply returns_bind; [exact IH|]. intros l [Hlen Hl].
  apply returns_ret. split; [by cbn; rewrite Hlen|by constructor].
Qed.

Section SourceFacts.

Variable draws : nat → Z.

Lemma repeat_draw (k pos : nat) :
  Rng.repeat k (Rng.draw draws) pos = (pos + k, Ok (draws <$> seq pos k)).
Proof.
  revert pos. induction k as [|k IH]; intros pos.
  - cbn. by rewrite Nat.add_0_r.
  - cbn [Rng.repeat]. unfold mbind, Rng.gen_bind, Rng.draw at 1.
    rewrite IH. cbn. by rewrite Nat.add_succ_r.
Qed.

Lemma run_rand shape pos :
  Rng.rand draws shape pos =
  (pos + Py.numel shape, Ok (VTensor shape (draws <$> seq pos (Py.numel shape)))).
Proof.
  unfold Rng.rand, mbind, Rng.gen_bind. by rewrite repeat_draw.
Qed.

Lemma returns_rand shape :
  returns (Rng.rand draws shape)
    (λ v, ∃ data, v = VTensor shape data ∧ length data = Py.numel shape).
Proof.
  intros pos. eexists _, _. split; [apply run_rand|].
  eexists. split; [done|]. by rewrite length_fmap, length_seq.
Qed.

Lemma returns_randint (low high : Z) :
  (low < high)%Z →
  returns (Rng.randint draws low high) (λ z, (low ≤ z < high)%Z).
Proof.
  intros Hlt pos. eexists _, _. split; [reflexivity|].
  pose proof (Z.mod_pos_bound (draws pos) (high - low)). lia.
Qed.

Lemma returns_torch_randint (low high : Z) (n : nat) :
  (low < high)%Z →
  returns (Rng.torch_randint draws low high n)
    (λ v, ∃ data, v = VTensor [n] data ∧ length data = n ∧
                  Forall (λ z, (low ≤ z < high)%Z) data).
Proof.
  intros Hlt. unfold Rng.torch_randint.
  eapply returns_bind; [apply returns_repeat, returns_randint, Hlt|].
  intros data [Hlen Hdata]. apply returns_ret. by exists data.
Qed.

End SourceFacts.

Lemma take2_drop {A} (l : list A) (k : nat) (x y : A) :
  l !! k = Some x → l !! S k = Some y → take 2 (drop k l) = [x; y].
Proof.
  revert k. induction l as [|a l IH]; intros k Hx Hy; [done|].
  destruct k as [|k].
  - injection Hx as ->. destruct l as [|b l]; [done|]. by injection Hy as ->.
  - cbn. by apply IH.
Qed.

Section BoxFacts.

Variable draws : nat → Z.
Variable scale shift : Z → Z.

Lemma run_rand_boxes (n pos : nat) :
  Data.rand_boxes draws scale shift n pos =
  (pos + n * 2,
   Ok (VTensor [n; 4]
         (concat ((λ o, Data.box_at draws scale shift (pos + o * 2))
                  <$> seq 0 n)))).
Proof.
  unfold Data.rand_boxes, mbind, Rng.gen_bind. rewrite run_rand.
  replace (Py.numel [n; 2]) with (n * 2) by (cbn; lia).
  set (raw := draws <$> seq pos (n * 2)).
  cbn [Tensor.map Rng.lift]. unfold Tensor.cat.
  cbn [mapM Torch.as_tensor]. rewrite !bind_Ok.
  cbn [Tensor.split_shape drop take mapM fst snd].
  rewrite !bind_Ok, bool_decide_eq_true_2 by done.
  cbn [mapM]. rewrite !bind_Ok.
  cbn [fmap list_fmap fst snd sum_list foldr app Nat.add sum_list_with].
  replace (Py.numel [n]) with n by (cbn; lia).
  unfold Rng.lift. change (id 2 + (id 2 + 0)) with 4. do 4 f_equal.
  apply list_fmap_ext. intros i o Ho. unfold Data.box_at.
  apply lookup_seq in Ho as [-> Hi]. cbn [concat fst snd Nat.add].
  unfold Tensor.block. replace (2 * Py.numel []) with 2 by done.
  rewrite app_nil_r.
  assert (raw !! (i * 2) = Some (draws (pos + i * 2))) as H0.
  { unfold raw. rewrite list_lookup_fmap, lookup_seq_lt by lia. done. }
  assert (raw !! S (i * 2) = Some (draws (S (pos + i * 2)))) as H1.
  { unfold raw. rewrite list_lookup_fmap, lookup_seq_lt by lia.
    cbn. do 2 f_equal. lia. }
  rewrite (take2_drop (scale <$> raw) (i * 2) (scale (draws (pos + i * 2)))
             (scale (draws (S (pos + i * 2))))).
  2, 3: by rewrite list_lookup_fmap, ?H0, ?H1.
  rewrite (take2_drop (shift <$> (scale <$> raw)) (i * 2)
             (shift (scale (draws (pos + i * 2))))
             (shift (scale (draws (S (pos + i * 2)))))).
  2, 3: by rewrite !list_lookup_fmap, ?H0, ?H1.
  reflexivity.
Qed.

End BoxFacts.

Lemma length_concat_rows {A} (rows : list (list A)) (k : nat) :
  Forall (λ row, length row = k) rows → length (concat rows) = length rows * k.
Proof.
  induction 1 as [|row rows Hrow _ IH]; [done|].
  cbn. rewrite length_app, IH, Hrow. lia.
Qed.

Lemma rand_boxes_data (draws : nat → Z) (scale shift : Z → Z) (n pos : nat) :
  ∃ data,
    Data.rand_boxes draws scale shift n pos =
      (pos + n * 2, Ok (VTensor [n; 4] data)) ∧
    length data = n * 4.
Proof.
  eexists. split; [apply run_rand_boxes|].
  rewrite (length_concat_rows _ 4); [by rewrite length_fmap, length_seq|].
  apply Forall_fmap, Forall_forall. by intros o _.
Qed.

(** [rand_boxes(n)] never raises and returns a tensor of shape (n, 4) that
    uses [2 n] draws.  Row [i] is the box [[x1, y1, x2, y2]] in which
    [(x1, y1)] are the scaled draws [2 i] and [2 i + 1] and [(x2, y2)] are
    the same shifted by 0.1, so that [x1 < x2] and [y1 < y2] for every
    order in which adding 0.1 increases a value.  An index from [n] on
    raises IndexError. *)
Theorem rand_boxes_rows (draws : nat → Z) (scale shift : Z → Z) (n pos : nat) :
  ∃ data,
    Data.rand_boxes draws scale shift n pos =
      (pos + n * 2, Ok (VTensor [n; 4] data)) ∧
    length data = n * 4 ∧
    (∀ i, i < n →
       Py.getitem (VTensor [n; 4] data) i =
       Ok (VTensor [4] (Data.box_at draws scale shift (pos + i * 2)))) ∧
    (∀ i, n ≤ i → Py.getitem (VTensor [n; 4] data) i = Raise IndexError) ∧
    (∀ lt : Z → Z → Prop, (∀ a, lt a (shift a)) →
       ∀ i, i < n →
         ∃ x1 y1 x2 y2,
           Py.getitem (VTensor [n; 4] data) i = Ok (VTensor [4] [x1; y1; x2; y2]) ∧
           lt x1 x2 ∧ lt y1 y2).
Proof.
  set (rows := (λ o, Data.box_at draws scale shift (pos + o * 2)) <$> seq 0 n).
  assert (length rows = n) as Hrows by (unfold rows; by rewrite length_fmap, length_seq).
  assert (Forall (λ row, length row = Py.numel [4]) rows) as Hwf.
  { apply Forall_fmap, Forall_forall. by intros o _. }
  assert (∀ i, i < n →
            Py.getitem (VTensor [n; 4] (concat rows)) i =
            Ok (VTensor [4] (Data.box_at draws scale shift (pos + i * 2)))) as Hrow.
  { intros i Hi. rewrite <- Hrows at 1. apply getitem_stacked; [exact Hwf|].
    unfold rows. by rewrite list_lookup_fmap, lookup_seq_lt. }
  exists (concat rows). split; [apply run_rand_boxes|]. split; [|split; [exact Hrow|split]].
  - by rewrite (length_concat_rows rows 4), Hrows.
  - intros i Hi. cbn [Py.getitem]. by rewrite decide_False by lia.
  - intros lt Hlt i Hi. eexists _, _, _, _. split; [by apply Hrow|].
    split; apply Hlt.
Qed.

Lemma rand_boxes_rows_witness :
  ∃ x1 y1 x2 y2,
    Py.getitem (VTensor [2; 4] [27; 90; 28; 91; 153; 216; 154; 217]%Z) 1 =
      Ok (VTensor [4] [x1; y1; x2; y2]) ∧
    (x1 < x2)%Z ∧ (y1 < y2)%Z.
Proof.
  destruct (rand_boxes_rows (λ i, Z.of_nat (i * 7 + 3)) (λ z, z * 9)%Z
              (λ z, z + 1)%Z 2 0) as (data & Hrun & _ & _ & _ & Horder).
  injection Hrun as <-.
  apply (Horder Z.lt); lia.
Defined.

(** ** The datasets *)

Lemma position_lt (n : nat) (idx : Z) : in_range n idx → position n idx < n.
Proof.
  unfold in_range, position. intros Hidx.
  pose proof (Z.mod_pos_bound idx (Z.of_nat n)). lia.
Qed.

Lemma position_nonneg (n : nat) (idx : Z) :
  in_range n idx → (0 ≤ idx)%Z → position n idx = Z.to_nat idx.
Proof.
  unfold in_range, position. intros Hidx Hpos. by rewrite Z.mod_small by lia.
Qed.

Lemma position_neg (n : nat) (idx : Z) :
  in_range n idx → (idx < 0)%Z → position n idx = Z.to_nat (idx + Z.of_nat n).
Proof.
  unfold in_range, position. intros Hidx Hneg.
  rewrite <- (Z_mod_plus_full idx 1 (Z.of_nat n)), Z.mul_1_l.
  by rewrite Z.mod_small by lia.
Qed.

Lemma index_z_in_range {A} `{Inhabited A} (items : list A) (idx : Z) :
  in_range (length items) idx →
  Data.index_z items idx = Ok (items !!! position (length items) idx).
Proof.
  intros Hidx. pose proof (position_lt _ _ Hidx) as Hlt.
  unfold Data.index_z. cbn zeta.
  assert (Py.index items (position (length items) idx) =
          Ok (items !!! position (length items) idx)) as Hindex.
  { unfold Py.index. destruct (lookup_lt_is_Some_2 items _ Hlt) as [x Hx].
    by rewrite Hx, (list_lookup_total_correct _ _ _ Hx). }
  pose proof Hidx as Hrange. unfold in_range in Hrange.
  destruct (decide (idx < 0)%Z) as [Hneg|Hpos].
  - rewrite decide_True by lia.
    by rewrite <- (position_neg (length items) idx Hidx Hneg).
  - rewrite decide_True by lia.
    by rewrite <- (position_nonneg (length items) idx Hidx) by lia.
Qed.

Lemma index_z_out_of_range {A} (items : list A) (idx : Z) :
  ¬ in_range (length items) idx → Data.index_z items idx = Raise IndexError.
Proof.
  unfold in_range, Data.index_z. intros Hidx. cbn zeta.
  destruct (decide (idx < 0)%Z); by rewrite decide_False by lia.
Qed.

Lemma getitem_in_range (self : Data.dataset) (n : nat) (idx : Z) :
  length (Data.imgs self) = n → length (Data.targets self) = n →
  in_range n idx →
  Data.getitem self idx =
  Ok (VTuple [Data.imgs self !!! position n idx;
              Data.targets self !!! position n idx]).
Proof.
  intros Himgs Htargets Hidx. unfold Data.getitem.
  rewrite (index_z_in_range (Data.imgs self) idx) by by rewrite Himgs.
  rewrite bind_Ok.
  rewrite (index_z_in_range (Data.targets self) idx) by by rewrite Htargets.
  by rewrite Himgs, Htargets.
Qed.

(** [__getitem__] and [__len__] on a dataset that holds as many images as
    targets, as the three classes build it: the length is that number [n];
    an index from [-n] to [n - 1] returns the pair of the image and the
    target at its position, a negative index counting from the end; every
    other index raises IndexError. *)
Theorem dataset_getitem (self : Data.dataset) (n : nat)
    (Himgs : length (Data.imgs self) = n)
    (Htargets : length (Data.targets self) = n) :
  Data.len self = n ∧
  ∀ idx : Z,
    (in_range n idx →
       Data.getitem self idx =
         Ok (VTuple [Data.imgs self !!! position n idx;
                     Data.targets self !!! position n idx]) ∧
       position n idx < n ∧
       ((0 ≤ idx)%Z → position n idx = Z.to_nat idx) ∧
       ((idx < 0)%Z → position n idx = Z.to_nat (idx + Z.of_nat n))) ∧
    (¬ in_range n idx → Data.getitem self idx = Raise IndexError).
Proof.
  split; [exact Htargets|]. intros idx. split.
  - intros Hidx. split; [by apply getitem_in_range|].
    split; [by apply position_lt|].
    split; [by apply position_nonneg|by apply position_neg].
  - intros Hidx. unfold Data.getitem.
    rewrite (index_z_out_of_range (Data.imgs self) idx) by by rewrite Himgs.
    reflexivity.
Qed.

Lemma dataset_getitem_witness :
  let self := Data.Dataset [VTensor [1] [5%Z]; VTensor [1] [7%Z]] [VInt 3; VInt 8] in
  Data.getitem self (-1) = Ok (VTuple [VTensor [1] [7%Z]; VInt 8]) ∧
  Data.getitem self 2 = Raise IndexError.
Proof.
  intros self.
  destruct (dataset_getitem self 2 eq_refl eq_refl) as [_ Hget]. split.
  - refine (proj1 (proj1 (Hget (-1)%Z) _)). unfold in_range. lia.
  - refine (proj2 (Hget 2%Z) _). unfold in_range. lia.
Defined.

Section DatasetFacts.

Variable draws : nat → Z.
Variable scale shift : Z → Z.

Lemma returns_image : returns (Rng.rand draws [3; 2; 2]) is_image.
Proof. eapply returns_weaken; [apply returns_rand|done]. Qed.

Lemma returns_TensorIntDataset n :
  returns (Data.TensorIntDataset draws n) (built n int_target).
Proof.
  unfold Data.TensorIntDataset.
  eapply returns_bind; [apply returns_repeat, returns_image|].
  intros imgs [Hlen Himgs].
  eapply returns_bind; [by apply returns_repeat, (returns_randint draws 0 9)|].
  intros targets [Hlen' Htargets]. apply returns_ret.
  split; [done|]. split; [by cbn; rewrite length_fmap|]. split; [done|].
  apply Forall_fmap. eapply Forall_impl; [exact Htargets|].
  intros z Hz. by exists z.
Qed.

Lemma returns_TensorDictDataset n :
  returns (Data.TensorDictDataset draws n) (built n dict_target).
Proof.
  unfold Data.TensorDictDataset.
  eapply returns_bind; [apply returns_repeat, returns_image|].
  intros imgs [Hlen Himgs].
  eapply returns_bind.
  { apply (returns_repeat _ _ dict_target).
    eapply returns_bind; [by apply (returns_randint draws 0 9)|].
    intros label Hlabel.
    eapply returns_bind; [by apply (returns_randint draws 0 9)|].
    intros other Hother. apply returns_ret. by exists label, other. }
  intros targets [Hlen' Htargets]. by apply returns_ret.
Qed.

Lemma returns_rand_target :
  returns (Data.rand_target draws scale shift) detection_target.
Proof.
  unfold Data.rand_target.
  eapply returns_bind; [by apply (returns_randint draws 1 10)|].
  intros n_objects Hn. cbn beta in Hn.
  eapply (returns_bind _ _ (λ v, ∃ boxes, v = VTensor [Z.to_nat n_objects; 4] boxes ∧
                                   length boxes = Z.to_nat n_objects * 4)).
  { intros pos.
    destruct (rand_boxes_data draws scale shift (Z.to_nat n_objects) pos)
      as (data & Hrun & Hlen).
    exists (pos + Z.to_nat n_objects * 2), (VTensor [Z.to_nat n_objects; 4] data).
    split; [exact Hrun|]. by exists data. }
  intros ? (boxes & -> & Hboxes).
  eapply returns_bind; [by apply (returns_torch_randint draws 0 91)|].
  intros ? (labels & -> & Hlabels & Hrange). apply returns_ret.
  exists (Z.to_nat n_objects), boxes, labels. repeat split; [lia|lia|done..].
Qed.

Lemma returns_DetectionDataset n :
  returns (Data.DetectionDataset draws scale shift n) (built n detection_target).
Proof.
  unfold Data.DetectionDataset.
  eapply returns_bind; [apply returns_repeat, returns_image|].
  intros imgs [Hlen Himgs].
  eapply returns_bind; [apply returns_repeat, returns_rand_target|].
  intros targets [Hlen' Htargets]. by apply returns_ret.
Qed.

End DatasetFacts.

(** The three constructors never raise and build, for every outcome of the
    random calls, a dataset of length [n_samples] with [n_samples] images of
    shape (3, 2, 2) and [n_samples] targets: integers from 0 to 8 for
    [TensorIntDataset], mappings of two such integers under "label" and
    "other_value" for [TensorDictDataset], mappings of [rand_target] for
    [DetectionDataset]. *)
Theorem datasets_built (draws : nat → Z) (scale shift : Z → Z) (n_samples : nat) :
  returns (Data.TensorIntDataset draws n_samples)
    (λ self, Data.len self = n_samples ∧ built n_samples int_target self) ∧
  returns (Data.TensorDictDataset draws n_samples)
    (λ self, Data.len self = n_samples ∧ built n_samples dict_target self) ∧
  returns (Data.DetectionDataset draws scale shift n_samples)
    (λ self, Data.len self = n_samples ∧ built n_samples detection_target self).
Proof.
  split; [|split].
  - eapply returns_weaken; [apply returns_TensorIntDataset|].
    intros self Hself. split; [apply Hself|done].
  - eapply returns_weaken; [apply returns_TensorDictDataset|].
    intros self Hself. split; [apply Hself|done].
  - eapply returns_weaken; [apply returns_DetectionDataset|].
    intros self Hself. split; [apply Hself|done].
Qed.

(** [rand_target()] never raises: it returns a mapping with the keys
    "boxes" and "labels" whose arrays have the same number of rows, between
    1 and 9: the boxes have shape (n_objects, 4) and the labels are
    n_objects integers from 0 to 90. *)
Theorem rand_target_consistent (draws : nat → Z) (scale shift : Z → Z) :
  returns (Data.rand_target draws scale shift) detection_target.
Proof. apply returns_rand_target. Qed.

(** ** From a dataset to a collated batch *)

Lemma fetch_in_range (self : Data.dataset) (n : nat) (indices : list Z) :
  length (Data.imgs self) = n → length (Data.targets self) = n →
  Forall (in_range n) indices →
  Data.fetch self indices =
  Ok (batch_of ((λ idx, (Data.imgs self !!! position n idx,
                         Data.targets self !!! position n idx)) <$> indices)).
Proof.
  intros Himgs Htargets Hindices. unfold Data.fetch, batch_of.
  rewrite (mapM_Ok _ (λ idx, VTuple [Data.imgs self !!! position n idx;
                                     Data.targets self !!! position n idx])).
  - by rewrite bind_Ok, <- list_fmap_compose.
  - intros idx Hidx. apply getitem_in_range; [done..|].
    rewrite Forall_forall in Hindices. by apply Hindices.
Qed.

Lemma images_at (imgs : list pyval) (n : nat) (indices : list Z) :
  length imgs = n → Forall is_image imgs → Forall (in_range n) indices →
  ∃ datas : list (list Z),
    (λ idx, imgs !!! position n idx) <$> indices = VTensor [3; 2; 2] <$> datas ∧
    Forall (λ data, length data = 12) datas ∧
    length (concat datas) = length indices * 12.
Proof.
  intros Hlen Himgs.
  induction 1 as [|idx indices Hidx _ (datas & Heq & Hrows & Hsize)].
  - by exists [].
  - assert (is_image (imgs !!! position n idx)) as (data & Hdata & Hdlen).
    { rewrite Forall_forall in Himgs. apply Himgs, list_elem_of_lookup_total_2.
      rewrite Hlen. by apply position_lt. }
    exists (data :: datas). split; [|split].
    + cbn. by rewrite Hdata, <- Heq.
    + by constructor.
    + cbn. rewrite length_app. lia.
Qed.

Lemma stacked_rows (imgs : list pyval) (datas : list (list Z)) (m : nat) :
  imgs = VTensor [3; 2; 2] <$> datas → length imgs = m →
  Forall (λ data, length data = 12) datas →
  ∀ k img, imgs !! k = Some img →
    Py.getitem (VTensor (m :: [3; 2; 2]) (concat datas)) k = Ok img.
Proof.
  intros -> <- Hrows k img Himg. rewrite length_fmap.
  apply list_lookup_fmap_Some in Himg as (data & -> & Hdata).
  by apply getitem_stacked.
Qed.

Section Pipelines.

Variable default_collate : pyval → result pyval.

Lemma built_collates_mappings (n : nat) (P : pyval → Prop) (self : Data.dataset) :
  (∀ v, P v → ∃ d, v = VDict d) → built n P self →
  collates_mappings default_collate n self.
Proof.
  intros Hdict (Himgs & Htargets & Himages & HP) indices Hne Hindices.
  destruct indices as [|idx0 more]; [done|]. clear Hne.
  destruct (images_at _ _ _ Himgs Himages Hindices)
    as (datas & Hdatas & Hrows & _).
  assert (∃ d, Data.targets self !!! position n idx0 = VDict d) as [d Hd].
  { apply Hdict. rewrite Forall_forall in HP.
    apply HP, list_elem_of_lookup_total_2. rewrite Htargets.
    apply position_lt. by apply Forall_cons_1 in Hindices as [? _]. }
  set (pair := λ idx, (Data.imgs self !!! position n idx,
                       Data.targets self !!! position n idx)).
  exists (batch_of (pair <$> idx0 :: more)), datas. cbn zeta.
  assert ((pair <$> idx0 :: more).*1 =
          (λ idx, Data.imgs self !!! position n idx) <$> idx0 :: more) as Hfst
    by by rewrite <- list_fmap_compose.
  assert ((pair <$> idx0 :: more).*2 =
          (λ idx, Data.targets self !!! position n idx) <$> idx0 :: more) as Hsnd
    by by rewrite <- list_fmap_compose.
  split; [by apply fetch_in_range|].
  assert (pair <$> idx0 :: more =
          (Data.imgs self !!! position n idx0, VDict d) :: (pair <$> more)) as Hhead.
  { cbn. unfold pair at 1. by rewrite Hd. }
  split; [exact Hdatas|]. split; [|split].
  - rewrite Hhead. etrans.
    + apply (custom_collate_pairs default_collate _ d (fmap (M:=list) pair more)
               [3; 2; 2] datas).
      rewrite <- Hhead, Hfst. exact Hdatas.
    + rewrite <- Hhead, Hsnd. by rewrite length_fmap.
  - apply stacked_rows; [exact Hdatas|by rewrite length_fmap|exact Hrows].
  - rewrite Hhead. etrans.
    + apply (custom_detection_collate_pairs default_collate _ d
               (fmap (M:=list) pair more)).
    + by rewrite <- Hhead, Hfst, Hsnd.
Qed.

Lemma integers_at (targets : list pyval) (n : nat) (indices : list Z) :
  length targets = n → Forall int_target targets → Forall (in_range n) indices →
  ∃ zs : list Z, (λ idx, targets !!! position n idx) <$> indices = VInt <$> zs.
Proof.
  intros Hlen Htargets. induction 1 as [|idx indices Hidx _ (zs & Heq)].
  - by exists [].
  - assert (int_target (targets !!! position n idx)) as (z & Hz & _).
    { rewrite Forall_forall in Htargets.
      apply Htargets, list_elem_of_lookup_total_2. rewrite Hlen.
      by apply position_lt. }
    exists (z :: zs). cbn. by rewrite Hz, <- Heq.
Qed.

Lemma built_integer_batch (n : nat) (self : Data.dataset) (indices : list Z) :
  built n int_target self → indices ≠ [] → Forall (in_range n) indices →
  ∃ data0 z0 (datas : list (list Z)) (zs : list Z)
    (pairs : list (pyval * pyval)),
    Data.fetch self indices =
      Ok (batch_of ((VTensor [3; 2; 2] data0, VInt z0) :: pairs)) ∧
    ((VTensor [3; 2; 2] data0, VInt z0) :: pairs).*1 =
      VTensor [3; 2; 2] <$> data0 :: datas ∧
    ((VTensor [3; 2; 2] data0, VInt z0) :: pairs).*2 = VInt <$> z0 :: zs ∧
    (λ idx, Data.targets self !!! position n idx) <$> indices =
      VInt <$> z0 :: zs ∧
    length (data0 :: datas) = length indices ∧
    length (z0 :: zs) = length indices ∧
    (λ idx, Data.imgs self !!! position n idx) <$> indices =
      VTensor [3; 2; 2] <$> data0 :: datas ∧
    Forall (λ data, length data = 12) (data0 :: datas).
Proof.
  intros (Himgs & Htargets & Himages & Hints) Hne Hindices.
  destruct (images_at _ _ _ Himgs Himages Hindices)
    as (datas & Hdatas & Hrows & _).
  destruct (integers_at _ _ _ Htargets Hints Hindices) as (zs & Hzs).
  set (pair := λ idx, (Data.imgs self !!! position n idx,
                       Data.targets self !!! position n idx)).
  assert ((pair <$> indices).*1 = VTensor [3; 2; 2] <$> datas) as Hfst
    by by rewrite <- list_fmap_compose.
  assert ((pair <$> indices).*2 = VInt <$> zs) as Hsnd
    by by rewrite <- list_fmap_compose.
  assert (length datas = length indices) as Hld.
  { by rewrite <- (length_fmap (VTensor [3; 2; 2])), <- Hdatas, length_fmap. }
  assert (length zs = length indices) as Hlz.
  { by rewrite <- (length_fmap VInt), <- Hzs, length_fmap. }
  pose proof (fetch_in_range self n indices Himgs Htargets Hindices) as Hfetch.
  fold pair in Hfetch.
  destruct indices as [|idx0 more]; [done|].
  destruct datas as [|data0 datas]; [done|]. destruct zs as [|z0 zs]; [done|].
  assert (pair idx0 = (VTensor [3; 2; 2] data0, VInt z0)) as Hpair0.
  { unfold pair. cbn in Hdatas, Hzs. injection Hdatas as -> _.
    by injection Hzs as -> _. }
  exists data0, z0, datas, zs, (pair <$> more).
  cbn [fmap list_fmap] in Hfetch, Hfst, Hsnd. rewrite Hpair0 in Hfetch, Hfst, Hsnd.
  done.
Qed.

Lemma built_delegates_integers (n : nat) (self : Data.dataset) :
  built n int_target self → delegates_integers default_collate n self.
Proof.
  intros Hself indices Hne Hindices.
  destruct (built_integer_batch n self indices Hself Hne Hindices)
    as (data0 & z0 & datas & zs & pairs & Hfetch & _).
  eexists. split; [exact Hfetch|]. done.
Qed.

Lemma built_default_stacks_integers (n : nat) (self : Data.dataset) :
  built n int_target self → default_stacks_integers n self.
Proof.
  intros Hself indices Hne Hindices.
  destruct (built_integer_batch n self indices Hself Hne Hindices)
    as (data0 & z0 & datas & zs & pairs & Hfetch & Hfst & Hsnd & Hzs &
        Hld & Hlz & Hdatas & Hrows).
  exists (batch_of ((VTensor [3; 2; 2] data0, VInt z0) :: pairs)),
         (data0 :: datas), (z0 :: zs). cbn zeta.
  split; [exact Hfetch|]. split; [exact Hdatas|]. split; [exact Hzs|].
  split; [|apply stacked_rows; [exact Hdatas|by rewrite length_fmap|exact Hrows]].
  set (samples := (VTensor [3; 2; 2] data0, VInt z0) :: pairs) in *.
  change (Torch.default_collate (batch_of samples))
    with (Torch.collate (VTuple [VTensor [3; 2; 2] data0; VInt z0])
                        (pair_sample <$> samples)).
  cbn [Torch.collate length].
  rewrite same_size_Ok.
  2:{ intros s (p & -> & _)%list_elem_of_fmap. done. }
  rewrite bind_Ok. cbn [Torch.collate_seq].
  assert (mapM (λ s, Py.getitem s 0) (pair_sample <$> samples) =
          Ok (VTensor [3; 2; 2] <$> data0 :: datas)) as ->.
  { rewrite mapM_fmap, (mapM_Ok _ fst) by done. by rewrite Hfst. }
  assert (mapM (λ s, Py.getitem s 1) (pair_sample <$> samples) =
          Ok (VInt <$> z0 :: zs)) as ->.
  { rewrite mapM_fmap, (mapM_Ok _ snd) by done. by rewrite Hsnd. }
  rewrite !bind_Ok. cbn [Torch.collate].
  rewrite stack_uniform by done.
  rewrite mapM_fmap, (mapM_Ok _ id) by done.
  rewrite list_fmap_id, !bind_Ok. by rewrite Hld, Hlz.
Qed.

End Pipelines.

(** Batches drawn from [TensorDictDataset] and [DetectionDataset].  For
    every outcome of the random calls and every non-empty list of accepted
    indices, the items are fetched without error.  [custom_collate] returns
    one tensor of shape (batch, 3, 2, 2) whose contents are the contents of
    the images at the indices, one image after the other in the order of
    the indices, so that its row [k] is the image at the [k]-th index,
    together with the list of the per-sample mappings in that order.
    [custom_detection_collate] returns the list of those images with the
    same list of mappings.  The result does not depend on the resolver. *)
Theorem mapping_datasets_collate (default_collate : pyval → result pyval)
    (draws : nat → Z) (scale shift : Z → Z) (n_samples : nat) :
  returns (Data.TensorDictDataset draws n_samples)
    (collates_mappings default_collate n_samples) ∧
  returns (Data.DetectionDataset draws scale shift n_samples)
    (collates_mappings default_collate n_samples).
Proof.
  split.
  - eapply returns_weaken; [apply returns_TensorDictDataset|].
    intros self. apply built_collates_mappings.
    intros v (a & b & -> & _). by eexists.
  - eapply returns_weaken; [apply returns_DetectionDataset|].
    intros self. apply built_collates_mappings.
    intros v (k & boxes & labels & -> & _). by eexists.
Qed.

Lemma mapping_datasets_collate_witness :
  ∃ pos self batch,
    Data.TensorDictDataset (λ i, Z.of_nat (i * 7 + 3)) 2 0 = (pos, Ok self) ∧
    Data.fetch self [1; 0]%Z = Ok batch ∧
    custom_collate Torch.default_collate batch =
      Ok (VTuple [VTensor [2; 3; 2; 2]
                    [87; 94; 101; 108; 115; 122; 129; 136; 143; 150; 157; 164;
                     3; 10; 17; 24; 31; 38; 45; 52; 59; 66; 73; 80]%Z;
                  VList [VDict [(KStr "label", VInt 5); (KStr "other_value", VInt 3)];
                         VDict [(KStr "label", VInt 0); (KStr "other_value", VInt 7)]]]).
Proof.
  destruct (proj1 (mapping_datasets_collate Torch.default_collate
                     (λ i, Z.of_nat (i * 7 + 3)) id id 2) 0)
    as (pos & self & Hrun & Hcollates).
  destruct (Hcollates [1; 0]%Z) as (batch & datas & Hfetch & Himgs & Hstack & _).
  { done. }
  { repeat constructor; unfold in_range; lia. }
  exists pos, self, batch. split; [exact Hrun|]. split; [exact Hfetch|].
  rewrite Hstack. injection Hrun as _ <-.
  destruct datas as [|data1 [|data0 [|data datas]]]; try discriminate.
  by injection Himgs as <- <-.
Defined.

(** Batches drawn from [TensorIntDataset].  For every outcome of the random
    calls and every non-empty list of accepted indices, the items are
    fetched without error, the test of the [if] evaluates to [False] and
    both callbacks return exactly what the resolver returns on the fetched
    batch. *)
Theorem int_dataset_delegates (default_collate : pyval → result pyval)
    (draws : nat → Z) (n_samples : nat) :
  returns (Data.TensorIntDataset draws n_samples)
    (delegates_integers default_collate n_samples).
Proof.
  eapply returns_weaken; [apply returns_TensorIntDataset|].
  intros self. apply built_delegates_integers.
Qed.

Lemma int_dataset_delegates_witness :
  ∃ pos self batch,
    Data.TensorIntDataset (λ i, Z.of_nat (i * 7 + 3)) 3 0 = (pos, Ok self) ∧
    Data.fetch self [0; -1]%Z = Ok batch ∧
    custom_collate Torch.default_collate batch = Torch.default_collate batch ∧
    custom_detection_collate Torch.default_collate batch =
      Torch.default_collate batch.
Proof.
  destruct (int_dataset_delegates Torch.default_collate
              (λ i, Z.of_nat (i * 7 + 3)) 3 0)
    as (pos & self & Hrun & Hdelegates).
  destruct (Hdelegates [0; -1]%Z) as (batch & Hfetch & _ & Hstack & Hlist).
  { done. }
  { repeat constructor; unfold in_range; lia. }
  by exists pos, self, batch.
Defined.

(** The default resolver on batches drawn from [TensorIntDataset], as the
    first loader of the notebook uses it: for every outcome of the random
    calls and every non-empty list of accepted indices it returns one tensor
    of shape (batch, 3, 2, 2) whose contents are the contents of the images
    at the indices, one image after the other in the order of the indices,
    so that its row [k] is the image at the [k]-th index, and the 1-D array
    of the integer targets at the indices in the same order. *)
Theorem int_dataset_default (draws : nat → Z) (n_samples : nat) :
  returns (Data.TensorIntDataset draws n_samples)
    (default_stacks_integers n_samples).
Proof.
  eapply returns_weaken; [apply returns_TensorIntDataset|].
  intros self. apply built_default_stacks_integers.
Qed.

Lemma int_dataset_default_witness :
  ∃ pos self batch,
    Data.TensorIntDataset (λ i, Z.of_nat (i * 7 + 3)) 3 0 = (pos, Ok self) ∧
    Data.fetch self [0; -1]%Z = Ok batch ∧
    Torch.default_collate batch =
      Ok (VTuple [VTensor [2; 3; 2; 2]
                    [3; 10; 17; 24; 31; 38; 45; 52; 59; 66; 73; 80;
                     171; 178; 185; 192; 199; 206; 213; 220; 227; 234; 241; 248]%Z;
                  VTensor [2] [3; 8]%Z]).
Proof.
  destruct (int_dataset_default (λ i, Z.of_nat (i * 7 + 3)) 3 0)
    as (pos & self & Hrun & Hdefault).
  destruct (Hdefault [0; -1]%Z) as
    (batch & datas & targets & Hfetch & Himgs & Htargets & Hcollate & _).
  { done. }
  { repeat constructor; unfold in_range; lia. }
  exists pos, self, batch. split; [exact Hrun|]. split; [exact Hfetch|].
  rewrite Hcollate. injection Hrun as _ <-.
  destruct datas as [|data0 [|data2 [|data datas]]]; try discriminate.
  destruct targets as [|z0 [|z1 [|z2 targets]]]; try discriminate.
  injection Himgs as <- <-. by injection Htargets as <- <-.
Defined.
